(** * django-pgcrypto: the encrypted model fields of [pgcrypto/fields.py]

    A shallow embedding of the [Cipher] class, of [BaseEncryptedField] and
    its subclasses, and of the [EncryptedLookup] query translator, with the
    properties of the envelope scheme proved over it.

    Python values are a small tagged union, exceptions are an error type,
    the one mutable object (the [Cipher] of a field) lives in an explicit
    state, and dictionaries are finite maps. *)

From Stdlib.Strings Require Import Byte Ascii String.
From stdpp Require Import base strings list gmap pretty.

Open Scope string_scope.
Open Scope list_scope.

(** ** Python values *)

#[global] Instance byte_eq_dec : EqDecision byte := Byte.byte_eq_dec.

(** The values that reach the fields: [None], integers, text ([str]),
    byte strings ([bytes]) and, opaquely, objects of other classes that are
    no containers (a [Decimal], a [float], a [date]): of such an object the
    model keeps its [str] and its truth value, which is false for
    [Decimal('0')] or [0.0]. Text and bytes are different types, as in
    Python 3. *)
Inductive pyval : Type :=
| PNone
| PInt (n : Z)
| PStr (s : string)
| PBytes (b : list byte)
| PObject (repr : string) (truth : bool).

#[global] Instance pyval_eq_dec : EqDecision pyval.
Proof. solve_decision. Defined.

(** Truth value of an object, as the [if value] test takes it. *)
Definition truthy (v : pyval) : bool :=
  match v with
  | PNone => false
  | PInt n => negb (n =? 0)%Z
  | PStr s => negb (String.eqb s "")
  | PBytes b => match b with [] => false | _ => true end
  | PObject _ truth => truth
  end.

(** ** Exceptions *)

Inductive exn : Type :=
| AssertionError
| AttributeError (attr : string)
| KeyError (key : string)
| NotImplementedError (msg : string)
| TypeError
| ValueError
| UnicodeError
| LookupError (encoding : string)
| BaseError (what : string).

Inductive result (A : Type) : Type :=
| OK (a : A)
| Raise (e : exn).
Arguments OK {A} a.
Arguments Raise {A} e.

Definition rbind {A B} (r : result A) (k : A -> result B) : result B :=
  match r with
  | OK a => k a
  | Raise e => Raise e
  end.

Definition rmap {A B} (f : A -> B) (r : result A) : result B :=
  rbind r (fun a => OK (f a)).

Definition of_option {A} (o : option A) (e : exn) : result A :=
  match o with
  | Some a => OK a
  | None => Raise e
  end.

(** ** Byte strings *)

Definition xor_bits (a b : bool * (bool * (bool * (bool * (bool * (bool * (bool * bool)))))))
  : bool * (bool * (bool * (bool * (bool * (bool * (bool * bool)))))) :=
  let '(a0, (a1, (a2, (a3, (a4, (a5, (a6, a7))))))) := a in
  let '(b0, (b1, (b2, (b3, (b4, (b5, (b6, b7))))))) := b in
  (xorb a0 b0, (xorb a1 b1, (xorb a2 b2, (xorb a3 b3,
   (xorb a4 b4, (xorb a5 b5, (xorb a6 b6, xorb a7 b7))))))).

Definition byte_xor (a b : byte) : byte :=
  Byte.of_bits (xor_bits (Byte.to_bits a) (Byte.to_bits b)).

(** [strxor]: position-wise exclusive or, as long as the shorter operand. *)
Definition bytes_xor (a b : list byte) : list byte := zip_with byte_xor a b.

Definition zero_block (n : nat) : list byte := replicate n x00.

(** ** The [%] operator on text

    [fmt % args] for the two directives the module uses: [%s] takes the
    next argument and [%%] is a percent sign. Too few or too many arguments
    are a [TypeError], another directive is a [ValueError]. *)
Fixpoint py_format (fmt : string) (args : list string) : result string :=
  match fmt with
  | EmptyString =>
      match args with
      | [] => OK EmptyString
      | _ :: _ => Raise TypeError
      end
  | String c rest =>
      if Ascii.eqb c "%"%char then
        match rest with
        | String d rest' =>
            if Ascii.eqb d "s"%char then
              match args with
              | a :: args' => rmap (String.append a) (py_format rest' args')
              | [] => Raise TypeError
              end
            else if Ascii.eqb d "%"%char then
              rmap (String "%"%char) (py_format rest' args)
            else Raise ValueError
        | EmptyString => Raise ValueError
        end
      else rmap (String c) (py_format rest args)
  end.


(** ** The monads

    [result] carries a raised exception; [M] threads the state of the field
    through a computation that may raise. A raise keeps the state reached so
    far, as an exception leaves the mutations made before it. *)

#[global] Instance result_ret : MRet result := fun A a => OK a.
#[global] Instance result_bind : MBind result := fun A B k r => rbind r k.

(** ** Codecs

    A text encoding, as [str.encode(charset)] and [bytes.decode(charset)]
    use it. Both directions can fail. *)
Record Codec : Type := {
  encode : string -> result (list byte);
  decode : list byte -> result string
}.

(** ** Block ciphers of [Cryptodome.Cipher]

    A cipher module ([AES], [Blowfish]) has a block size, the key lengths
    it accepts, and the keyed permutation of one block with its inverse. *)
Record CipherModule : Type := {
  block_size : nat;
  key_size : nat -> bool;
  encrypt_block : list byte -> list byte -> list byte;
  decrypt_block : list byte -> list byte -> list byte
}.

Inductive cipher_mode : Type := MODE_CBC.

(** The object [new] returns: the chaining value [cbc_iv] is updated by
    every [encrypt] and [decrypt] call on it. *)
Record CbcCipher : Type := {
  cbc_module : CipherModule;
  cbc_key : list byte;
  cbc_iv : list byte
}.

(** [module.new(key, mode, iv)]: the key must be a byte string of an
    accepted length and the IV one block long. *)
Definition Cipher_new (m : CipherModule) (key : pyval) (mode : cipher_mode)
    (iv : list byte) : result CbcCipher :=
  match key with
  | PBytes k =>
      if key_size m (length k) && (length iv =? block_size m)%nat
      then OK {| cbc_module := m; cbc_key := k; cbc_iv := iv |}
      else Raise ValueError
  | _ => Raise TypeError
  end.

(** Chaining over [n] blocks of [bs] bytes; returns the output and the
    last chaining value. *)
Fixpoint cbc_encrypt_blocks (E : list byte -> list byte) (bs n : nat)
    (prev data : list byte) : list byte * list byte :=
  match n with
  | 0 => ([], prev)
  | S n' =>
      let c := E (bytes_xor (take bs data) prev) in
      let '(cs, last) := cbc_encrypt_blocks E bs n' c (drop bs data) in
      (c ++ cs, last)
  end.

Fixpoint cbc_decrypt_blocks (D : list byte -> list byte) (bs n : nat)
    (prev data : list byte) : list byte * list byte :=
  match n with
  | 0 => ([], prev)
  | S n' =>
      let c := take bs data in
      let p := bytes_xor (D c) prev in
      let '(ps, last) := cbc_decrypt_blocks D bs n' c (drop bs data) in
      (p ++ ps, last)
  end.

(** [ctx.encrypt(data)] and [ctx.decrypt(data)]: the data must be a whole
    number of blocks. *)
Definition cbc_encrypt (c : CbcCipher) (data : list byte)
    : result (list byte * CbcCipher) :=
  let m := cbc_module c in
  let bs := block_size m in
  if (length data mod bs =? 0)%nat then
    let '(out, last) :=
      cbc_encrypt_blocks (encrypt_block m (cbc_key c)) bs (length data / bs)
        (cbc_iv c) data in
    OK (out, {| cbc_module := m; cbc_key := cbc_key c; cbc_iv := last |})
  else Raise ValueError.

Definition cbc_decrypt (c : CbcCipher) (data : list byte)
    : result (list byte * CbcCipher) :=
  let m := cbc_module c in
  let bs := block_size m in
  if (length data mod bs =? 0)%nat then
    let '(out, last) :=
      cbc_decrypt_blocks (decrypt_block m (cbc_key c)) bs (length data / bs)
        (cbc_iv c) data in
    OK (out, {| cbc_module := m; cbc_key := cbc_key c; cbc_iv := last |})
  else Raise ValueError.

(** ** Settings

    [settings.PGCRYPTO] is a dictionary read with [.get(key, default)]: an
    absent key is [None] here. *)
Record Settings : Type := {
  VALID_CIPHERS : option (list string);
  CHECK_ARMOR : option bool;
  VERSIONED : option bool;
  DEFAULT_CIPHER : option string
}.

(** ** The [Cipher] object *)
Record Cipher : Type := {
  name : string;
  cipher_key : pyval;
  charset : string;
  cipher_class : CipherModule
}.

(** ** The field classes *)
Inductive FieldClass : Type :=
| BaseEncryptedField
| EncryptedTextField
| EncryptedCharField
| EncryptedIntegerField
| EncryptedDecimalField
| EncryptedDateField
| EncryptedDateTimeField
| EncryptedEmailField.

#[global] Instance FieldClass_eq_dec : EqDecision FieldClass.
Proof. solve_decision. Defined.

(** Method resolution order inside the module; after the last class comes
    Django's [models.Field]. *)
Definition mro (c : FieldClass) : list FieldClass :=
  match c with
  | BaseEncryptedField => [BaseEncryptedField]
  | EncryptedDateTimeField =>
      [EncryptedDateTimeField; EncryptedDateField; BaseEncryptedField]
  | _ => [c; BaseEncryptedField]
  end.

(** The names each class body binds. *)
Definition class_body (c : FieldClass) : list string :=
  match c with
  | BaseEncryptedField =>
      ["field_cast"; "__init__"; "get_internal_type"; "south_field_triple";
       "deconstruct"; "to_python"; "from_db_value"; "get_db_prep_save"]
  | EncryptedTextField => ["description"; "formfield"]
  | EncryptedCharField => ["description"; "__init__"; "formfield"]
  | EncryptedIntegerField =>
      ["description"; "field_cast"; "formfield"; "to_python"]
  | EncryptedDecimalField =>
      ["description"; "field_cast"; "formfield"; "to_python"]
  | EncryptedDateField =>
      ["description"; "field_cast"; "__init__"; "formfield"; "to_python";
       "value_to_string"; "pre_save"; "_parse_value"; "_get_auto_now_value"]
  | EncryptedDateTimeField =>
      ["description"; "field_cast"; "formfield"; "_parse_value";
       "_get_auto_now_value"]
  | EncryptedEmailField => ["default_validators"; "description"; "formfield"]
  end.

(** The names [__init__] binds on the instance. *)
Definition instance_dict (c : FieldClass) : list string :=
  match c with
  | EncryptedDateField | EncryptedDateTimeField =>
      ["auto_now"; "auto_now_add"; "cipher"]
  | _ => ["cipher"]
  end.

(** Whether the module itself provides attribute [attr] of a field. *)
Definition defined_here (c : FieldClass) (attr : string) : bool :=
  bool_decide (attr ∈ instance_dict c)
  || existsb (fun k => bool_decide (attr ∈ class_body k)) (mro c).

(** [field_cast] as each class body assigns it. *)
Definition own_field_cast (c : FieldClass) : option string :=
  match c with
  | BaseEncryptedField => Some ""
  | EncryptedIntegerField => Some "::integer"
  | EncryptedDecimalField => Some "::numeric"
  | EncryptedDateField => Some "::date"
  | EncryptedDateTimeField => Some "timestamp with time zone"
  | _ => None
  end.

(** The class attribute through the resolution order. *)
Definition field_cast (c : FieldClass) : string :=
  default "" (head (omap own_field_cast (mro c))).

(** ** The state of a field

    A field instance owns one [Cipher] object for its whole life: every
    method reads and writes that same object. [calls] records what was asked
    of the cipher library, oldest first. *)
Inductive crypto_call : Type :=
| CallNew (key : pyval) (iv : list byte)
| CallEncrypt (data : list byte)
| CallDecrypt (data : list byte).

Record Field : Type := {
  cls : FieldClass;
  cipher : Cipher;
  calls : list crypto_call
}.

Definition M (A : Type) : Type := Field -> result A * Field.

#[global] Instance M_ret : MRet M := fun A a w => (OK a, w).
#[global] Instance M_bind : MBind M := fun A B k m w =>
  match m w with
  | (OK a, w') => k a w'
  | (Raise e, w') => (Raise e, w')
  end.

Definition raise {A} (e : exn) : M A := fun w => (Raise e, w).
Definition lift {A} (r : result A) : M A := fun w => (r, w).
Definition get_class : M FieldClass := fun w => (OK (cls w), w).
Definition get_cipher_object : M Cipher := fun w => (OK (cipher w), w).
Definition set_cipher_object (c : Cipher) : M unit := fun w =>
  (OK tt, {| cls := cls w; cipher := c; calls := calls w |}).
Definition log_call (e : crypto_call) : M unit := fun w =>
  (OK tt, {| cls := cls w; cipher := cipher w; calls := calls w ++ [e] |}).

(** [for x in xs] collecting the results, left to right. *)
Fixpoint for_each {A B} (f : A -> M B) (xs : list A) : M (list B) :=
  match xs with
  | [] => mret []
  | x :: xs' => y ← f x; ys ← for_each f xs'; mret (y :: ys)
  end.

(** ** The collaborators

    What [fields.py] imports: the settings, the helpers of
    [pgcrypto/base.py], Python's codec registry, the cipher modules of
    [Cryptodome.Cipher], the parsers of the typed fields ([int],
    [decimal.Decimal], [to_python] of Django's [DateField] and
    [DateTimeField]), [value_to_string] of the date field (which rests on
    Django's [_get_val_from_obj]), and the attributes a field inherits from
    Django's [models.Field], as callables of one argument ([None] when
    [models.Field] has no such attribute). *)
Class Environment : Type := {
  settings : Settings;
  aes_pad_key : pyval -> result pyval;
  armor : list byte -> bool -> string;
  dearmor : pyval -> bool -> result (list byte);
  pad : list byte -> nat -> list byte;
  unpad : list byte -> nat -> result (list byte);
  is_encrypted : pyval -> bool;
  codecs : string -> option Codec;
  Cryptodome : string -> option CipherModule;
  py_int : pyval -> result pyval;
  py_Decimal : pyval -> result pyval;
  DateField_to_python : pyval -> result pyval;
  DateTimeField_to_python : pyval -> result pyval;
  value_to_string : pyval -> M pyval;
  models_Field_attr : string -> option (pyval -> M pyval)
}.

(** ** Sample collaborators

    Concrete codecs, cipher modules and a concrete [pgcrypto.base], on which
    the general statements below are run. *)
Module Sample.

(** *** Codecs *)

Definition latin_1 : Codec := {|
  encode := fun s => OK (map byte_of_ascii (list_ascii_of_string s));
  decode := fun b => OK (string_of_list_ascii (map ascii_of_byte b))
|}.

(** UTF-8 on the code points below 256, which are the ones a [string]
    holds: one byte below 128, two bytes from 128 on. *)
Definition utf8_encode_char (c : ascii) : list byte :=
  let n := N_of_ascii c in
  if (n <? 128)%N then [byte_of_ascii c]
  else
    match Byte.of_N (192 + n / 64), Byte.of_N (128 + n mod 64) with
    | Some b1, Some b2 => [b1; b2]
    | _, _ => []
    end.

Fixpoint utf8_encode (s : string) : list byte :=
  match s with
  | EmptyString => []
  | String c rest => utf8_encode_char c ++ utf8_encode rest
  end.

Fixpoint utf8_decode (b : list byte) : result string :=
  match b with
  | [] => OK EmptyString
  | b1 :: rest =>
      let n1 := Byte.to_N b1 in
      if (n1 <? 128)%N then rmap (String (ascii_of_byte b1)) (utf8_decode rest)
      else if (194 <=? n1)%N && (n1 <=? 195)%N then
        match rest with
        | b2 :: rest' =>
            let n2 := Byte.to_N b2 in
            if (128 <=? n2)%N && (n2 <? 192)%N then
              rmap (String (ascii_of_N ((n1 - 192) * 64 + (n2 - 128))))
                (utf8_decode rest')
            else Raise UnicodeError
        | [] => Raise UnicodeError
        end
      else Raise UnicodeError
  end.

Definition utf_8 : Codec := {|
  encode := fun s => OK (utf8_encode s);
  decode := utf8_decode
|}.

Definition codecs (charset : string) : option Codec :=
  if String.eqb charset "utf-8" then Some utf_8
  else if String.eqb charset "latin-1" then Some latin_1
  else None.

(** *** Cipher modules

    The block size and key lengths are those of [Cryptodome.Cipher.AES]
    and [Cryptodome.Cipher.Blowfish]; the permutation of a block is a
    stand-in (exclusive or with the repeated key, then reversal). *)
Definition key_stream (key : list byte) (n : nat) : list byte :=
  take n (mjoin (replicate n key)).

Definition toy_encrypt_block (key block : list byte) : list byte :=
  reverse (bytes_xor block (key_stream key (length block))).

Definition toy_decrypt_block (key block : list byte) : list byte :=
  bytes_xor (reverse block) (key_stream key (length block)).

Definition AES : CipherModule := {|
  block_size := 16;
  key_size := fun n => (n =? 16)%nat || (n =? 24)%nat || (n =? 32)%nat;
  encrypt_block := toy_encrypt_block;
  decrypt_block := toy_decrypt_block
|}.

Definition Blowfish : CipherModule := {|
  block_size := 8;
  key_size := fun n => (4 <=? n)%nat && (n <=? 56)%nat;
  encrypt_block := toy_encrypt_block;
  decrypt_block := toy_decrypt_block
|}.

Definition Cryptodome (name : string) : option CipherModule :=
  if String.eqb name "AES" then Some AES
  else if String.eqb name "Blowfish" then Some Blowfish
  else None.

(** *** [pgcrypto.base] *)

Definition byte_of_nat (n : nat) : byte :=
  default x00 (Byte.of_N (N.of_nat n)).

(** Modelled from the spec: [pad] of the absent [pgcrypto/base.py].
    Appends N bytes of value N, 1 <= N <= blockSize, up to the next
    multiple of the block size; a full block when already aligned. *)
Definition pad (b : list byte) (bs : nat) : list byte :=
  let n := bs - length b mod bs in
  b ++ replicate n (byte_of_nat n).

(** Modelled from the spec: [unpad] of the absent [pgcrypto/base.py].
    The last byte is the count; it must lie in [1, blockSize] and the
    input must be non-empty and a whole number of blocks. *)
Definition unpad (b : list byte) (bs : nat) : result (list byte) :=
  match last b with
  | None => Raise (BaseError "padding")
  | Some c =>
      let n := N.to_nat (Byte.to_N c) in
      if (length b mod bs =? 0)%nat && (1 <=? n)%nat && (n <=? bs)%nat
      then OK (take (length b - n) b)
      else Raise (BaseError "padding")
  end.

(** Lower-case hexadecimal digits, by their character codes. *)
Definition hex_digit (n : N) : ascii :=
  if (n <? 10)%N then ascii_of_N (48 + n) else ascii_of_N (87 + n mod 16).

Definition hex_value (c : ascii) : option N :=
  let n := N_of_ascii c in
  if (48 <=? n)%N && (n <=? 57)%N then Some (n - 48)%N
  else if (97 <=? n)%N && (n <=? 102)%N then Some (n - 87)%N
  else None.

Fixpoint hex_encode (b : list byte) : string :=
  match b with
  | [] => EmptyString
  | x :: rest =>
      let n := Byte.to_N x in
      String (hex_digit (n / 16)) (String (hex_digit (n mod 16)) (hex_encode rest))
  end.

Fixpoint hex_decode (s : string) : option (list byte) :=
  match s with
  | EmptyString => Some []
  | String c1 (String c2 rest) =>
      h ← hex_value c1; l ← hex_value c2;
      x ← Byte.of_N (h * 16 + l);
      rest' ← hex_decode rest;
      Some (x :: rest')
  | String _ EmptyString => None
  end.

Definition version_marker : ascii := "v"%char.

(** Modelled from the spec: [armor] of the absent [pgcrypto/base.py].
    A text-safe encoding of the bytes (base 16 here), behind one version
    marker character when [versioned] is set. *)
Definition armor (b : list byte) (versioned : bool) : string :=
  if versioned then String version_marker (hex_encode b) else hex_encode b.

(** Modelled from the spec: [dearmor] of the absent [pgcrypto/base.py].
    Strips the version marker when there is one, then decodes; a format
    error when the text does not decode. *)
Definition dearmor (v : pyval) (verify : bool) : result (list byte) :=
  match v with
  | PStr (String c rest as s) =>
      of_option
        (if Ascii.eqb c version_marker then hex_decode rest else hex_decode s)
        (BaseError "armor")
  | PStr EmptyString => OK []
  | _ => Raise TypeError
  end.

(** Modelled from the spec: [is_encrypted] of the absent
    [pgcrypto/base.py]. True iff the value parses as an envelope. *)
Definition is_encrypted (v : pyval) : bool :=
  match v with
  | PStr EmptyString => false
  | PStr _ => match dearmor v true with OK _ => true | Raise _ => false end
  | _ => false
  end.

(** Modelled from the spec: [aes_pad_key] of the absent
    [pgcrypto/base.py]. Brings key material to a valid AES key length:
    zero bytes up to 16, 24 or 32, and the first 32 bytes of a longer
    key. *)
Definition aes_pad_key (v : pyval) : result pyval :=
  match v with
  | PBytes k =>
      let n := length k in
      let target :=
        if (n <=? 16)%nat then 16
        else if (n <=? 24)%nat then 24 else 32 in
      OK (PBytes (take target (k ++ replicate (target - n) x00)))
  | _ => Raise TypeError
  end.

Definition settings : Settings := {|
  VALID_CIPHERS := None;
  CHECK_ARMOR := None;
  VERSIONED := None;
  DEFAULT_CIPHER := None
|}.

(** The typed parsers are not exercised: they refuse every value. *)
Definition env : Environment :=
  Build_Environment settings aes_pad_key armor dearmor pad unpad
    is_encrypted codecs Cryptodome
    (fun _ => Raise ValueError) (fun _ => Raise ValueError)
    (fun _ => Raise ValueError) (fun _ => Raise ValueError)
    (fun _ => raise TypeError) (fun _ => None).

Definition bytes_of_text (s : string) : list byte :=
  map byte_of_ascii (list_ascii_of_string s).

Definition key32 : list byte := bytes_of_text "0123456789abcdef0123456789abcdef".

(** An AES cipher object with a 32-byte key and a text field on it. *)
Definition cipher_AES : Cipher := {|
  name := "AES";
  cipher_key := PBytes key32;
  charset := "utf-8";
  cipher_class := AES
|}.

Definition text_field : Field :=
  {| cls := EncryptedTextField; cipher := cipher_AES; calls := [] |}.

(** The envelope of ["hello world"] under [cipher_AES]. *)
Definition hello_envelope : pyval := PStr "636061666705554a5841155b5f5e5458".

(** [connection.operators] of a backend, for the five lookups. *)
Definition operators : gmap string string :=
  {[ "exact" := "= %s"; "gt" := "> %s"; "gte" := ">= %s";
     "lt" := "< %s"; "lte" := "<= %s" ]}.

(** A Blowfish cipher object with an 8-byte key and a char field on it. *)
Definition cipher_Blowfish : Cipher := {|
  name := "Blowfish";
  cipher_key := PBytes (bytes_of_text "tenant-b");
  charset := "utf-8";
  cipher_class := Blowfish
|}.

Definition char_field : Field :=
  {| cls := EncryptedCharField; cipher := cipher_Blowfish; calls := [] |}.

Definition integer_field : Field :=
  {| cls := EncryptedIntegerField; cipher := cipher_AES; calls := [] |}.

(** A second AES key, 16 bytes, for the context of a read. *)
Definition key16 : list byte := bytes_of_text "tenant-key-16-by".

(** [int] on the values modelled: an integer is kept and a text of decimal
    digits, with an optional minus sign, is read. *)
Fixpoint digits_value (s : string) (acc : N) : option N :=
  match s with
  | EmptyString => Some acc
  | String d rest =>
      let n := N_of_ascii d in
      if (48 <=? n)%N && (n <=? 57)%N
      then digits_value rest (acc * 10 + (n - 48))%N
      else None
  end.

Definition parse_int (v : pyval) : result pyval :=
  match v with
  | PInt n => OK (PInt n)
  | PStr EmptyString => Raise ValueError
  | PStr (String d rest as s) =>
      if Ascii.eqb d "-"%char then
        match rest with
        | EmptyString => Raise ValueError
        | _ => of_option
                 (n ← digits_value rest 0; Some (PInt (- Z.of_N n)))
                 ValueError
        end
      else of_option (n ← digits_value s 0; Some (PInt (Z.of_N n))) ValueError
  | _ => Raise TypeError
  end.

(** The sample environment with [int] in place. *)
Definition env_typed : Environment :=
  Build_Environment settings aes_pad_key armor dearmor pad unpad
    is_encrypted codecs Cryptodome
    parse_int (fun _ => Raise ValueError)
    (fun _ => Raise ValueError) (fun _ => Raise ValueError)
    (fun _ => raise TypeError) (fun _ => None).

(** Settings that enable a third cipher, and a library that has it: the
    block and key sizes of triple DES. *)
Definition settings_DES3 : Settings := {|
  VALID_CIPHERS := Some ["AES"; "Blowfish"; "DES3"];
  CHECK_ARMOR := None;
  VERSIONED := None;
  DEFAULT_CIPHER := Some "DES3"
|}.

Definition DES3 : CipherModule := {|
  block_size := 8;
  key_size := fun n => (n =? 16)%nat || (n =? 24)%nat;
  encrypt_block := toy_encrypt_block;
  decrypt_block := toy_decrypt_block
|}.

Definition env_DES3 : Environment :=
  Build_Environment settings_DES3 aes_pad_key armor dearmor pad unpad
    is_encrypted
    codecs
    (fun name => if String.eqb name "DES3" then Some DES3 else Cryptodome name)
    (fun _ => Raise ValueError) (fun _ => Raise ValueError)
    (fun _ => Raise ValueError) (fun _ => Raise ValueError)
    (fun _ => raise TypeError) (fun _ => None).

End Sample.

(** * The module [pgcrypto/fields.py] *)
Section Fields.

Context {ENV : Environment}.

Definition py_encode (encoding : string) (s : string) : result (list byte) :=
  c ← of_option (codecs encoding) (LookupError encoding); encode c s.

Definition py_decode (encoding : string) (b : list byte) : result string :=
  c ← of_option (codecs encoding) (LookupError encoding); decode c b.

(** [django.utils.encoding.force_bytes(s, encoding)]: bytes are kept (and
    transcoded from UTF-8 for another encoding), text is encoded, anything
    else is encoded from its [str]. *)
Definition force_bytes (s : pyval) (encoding : string) : result (list byte) :=
  match s with
  | PBytes b =>
      if String.eqb encoding "utf-8" then OK b
      else t ← py_decode "utf-8" b; py_encode encoding t
  | PStr t => py_encode encoding t
  | PNone => py_encode encoding "None"
  | PInt n => py_encode encoding (pretty n)
  | PObject repr _ => py_encode encoding repr
  end.

(** ** class Cipher *)

Definition Cipher_valid_ciphers : list string :=
  default ["AES"; "Blowfish"] (VALID_CIPHERS settings).
Definition Cipher_check_armor : bool := default true (CHECK_ARMOR settings).
Definition Cipher_versioned : bool := default false (VERSIONED settings).

(** [Cipher.__init__]: the key is stored as given. *)
Definition Cipher_init (name : string) (key : pyval) (charset : string)
    : result Cipher :=
  if bool_decide (name ∈ Cipher_valid_ciphers) then
    module ← of_option (Cryptodome name) (AttributeError name);
    OK {| name := name; cipher_key := key; charset := charset;
          cipher_class := module |}
  else Raise AssertionError.

(** The setter of the [cipher_key] property. *)
Definition Cipher_set_cipher_key (value : pyval) : M unit :=
  self ← get_cipher_object;
  if String.eqb (name self) "AES" then
    value' ← lift (match value with
                   | PStr t => rmap PBytes (py_encode (charset self) t)
                   | _ => OK value
                   end);
    padded ← lift (aes_pad_key value');
    set_cipher_object
      {| name := name self; cipher_key := padded; charset := charset self;
         cipher_class := cipher_class self |}
  else
    set_cipher_object
      {| name := name self; cipher_key := value; charset := charset self;
         cipher_class := cipher_class self |}.

(** [Cipher.get_cipher]: a new context with a zeroed IV. *)
Definition Cipher_get_cipher : M CbcCipher :=
  self ← get_cipher_object;
  let iv := zero_block (block_size (cipher_class self)) in
  log_call (CallNew (cipher_key self) iv);;
  lift (Cipher_new (cipher_class self) (cipher_key self) MODE_CBC iv).

Definition Cipher_encrypt (value : pyval) : M pyval :=
  self ← get_cipher_object;
  raw ← lift (force_bytes value (charset self));
  let padded := pad raw (block_size (cipher_class self)) in
  ctx ← Cipher_get_cipher;
  log_call (CallEncrypt padded);;
  encryted ← lift (cbc_encrypt ctx padded);
  let armored := armor encryted.1 Cipher_versioned in
  mret (PStr armored).

Definition Cipher_decrypt (value : pyval) : M pyval :=
  self ← get_cipher_object;
  dearmored ← lift (dearmor value Cipher_check_armor);
  ctx ← Cipher_get_cipher;
  log_call (CallDecrypt dearmored);;
  decrypted ← lift (cbc_decrypt ctx dearmored);
  raw ← lift (unpad decrypted.1 (block_size (cipher_class self)));
  unpadded ← lift (py_decode (charset self) raw);
  mret (PStr unpadded).

(** ** class BaseEncryptedField and its subclasses *)

(** [BaseEncryptedField.__init__] with the keywords [key] and [charset]. *)
Definition BaseEncryptedField_init (c : FieldClass) (key : option pyval)
    (charset : option string) : result Field :=
  ci ← Cipher_init (default "AES" (DEFAULT_CIPHER settings))
         (default (PBytes []) key) (default "utf-8" charset);
  OK {| cls := c; cipher := ci; calls := [] |}.

Definition BaseEncryptedField_to_python (value : pyval) : M pyval :=
  if is_encrypted value then Cipher_decrypt value else mret value.

Definition EncryptedIntegerField_to_python (value : pyval) : M pyval :=
  if truthy value then
    plain_value ← BaseEncryptedField_to_python value;
    lift (py_int plain_value)
  else mret value.

Definition EncryptedDecimalField_to_python (value : pyval) : M pyval :=
  if truthy value then
    plain_value ← BaseEncryptedField_to_python value;
    lift (py_Decimal plain_value)
  else mret value.

(** [Field.empty_values] of Django, on the values modelled. *)
Definition empty_values : list pyval := [PNone; PStr ""].

(** [self._parse_value]: the date-time class overrides it. *)
Definition parse_value (c : FieldClass) (value : pyval) : result pyval :=
  match c with
  | EncryptedDateTimeField => DateTimeField_to_python value
  | _ => DateField_to_python value
  end.

Definition EncryptedDateField_to_python (c : FieldClass) (value : pyval)
    : M pyval :=
  if bool_decide (value ∈ empty_values) then mret PNone
  else
    unencrypted_value ← BaseEncryptedField_to_python value;
    lift (parse_value c unencrypted_value).

(** [self.to_python], resolved on the class of the instance. *)
Definition to_python (value : pyval) : M pyval :=
  c ← get_class;
  match c with
  | EncryptedIntegerField => EncryptedIntegerField_to_python value
  | EncryptedDecimalField => EncryptedDecimalField_to_python value
  | EncryptedDateField | EncryptedDateTimeField =>
      EncryptedDateField_to_python c value
  | _ => BaseEncryptedField_to_python value
  end.

(** [from_db_value(value, expression, connection, context)]. *)
Definition BaseEncryptedField_from_db_value (value : pyval)
    (context : gmap string pyval) : M pyval :=
  self ← get_cipher_object;
  Cipher_set_cipher_key (default (cipher_key self) (context !! "cipher_key"));;
  to_python value.

Definition BaseEncryptedField_get_db_prep_save (value : pyval) : M pyval :=
  if truthy value && negb (is_encrypted value) then Cipher_encrypt value
  else mret value.

(** ** class EncryptedLookup *)

Definition cipher_names : gmap string string :=
  {[ "AES" := "aes"; "Blowfish" := "bf" ]}.

(** [as_postgresql]: [process_lhs] and [process_rhs] are the results of
    Django's two methods, [operators] is [connection.operators]. *)
Definition EncryptedLookup_as_postgresql (lookup_name : string)
    (process_lhs process_rhs : result (string * list pyval))
    (operators : gmap string string) : M (string * list pyval) :=
  '(lhs, lhs_params) ← lift process_lhs;
  '(rhs, rhs_params) ← lift process_rhs;
  self ← get_cipher_object;
  let params := lhs_params ++ [cipher_key self] ++ rhs_params in
  op ← lift (of_option (operators !! lookup_name) (KeyError lookup_name));
  rhs ← lift (py_format op [rhs]);
  cipher ← lift (of_option (cipher_names !! name self) (KeyError (name self)));
  c ← get_class;
  sql ← lift (py_format
                "convert_from(decrypt(dearmor(%s), %%s, '%s'), 'utf-8')%s %s"
                [lhs; cipher; field_cast c; rhs]);
  mret (sql, params).

(** [field.attr(arg)]: the call of an attribute of the field with one
    argument. Of the names the module binds, [to_python], [_parse_value]
    and [value_to_string] are callable so; the others take another number
    of arguments or are not callable. A name the module does not bind is
    looked up on [models.Field]. *)
Definition field_call (attr : string) (arg : pyval) : M pyval :=
  c ← get_class;
  if defined_here c attr then
    if String.eqb attr "to_python" then to_python arg
    else if String.eqb attr "_parse_value" then lift (parse_value c arg)
    else if String.eqb attr "value_to_string" then value_to_string arg
    else raise TypeError
  else
    match models_Field_attr attr with
    | Some f => f arg
    | None => raise (AttributeError attr)
    end.

Definition EncryptedLookup_as_sql (lookup_name : string)
    (process_lhs process_rhs : result (string * list pyval))
    (operators : gmap string string) : M (string * list pyval) :=
  if negb (String.eqb lookup_name "exact") then
    raise (NotImplementedError
             ("Vendor 'sql' does not support lookup '" +:+ lookup_name +:+ "'"))
  else
    '(lhs, lhs_params) ← lift process_lhs;
    '(rhs, rhs_params) ← lift process_rhs;
    rhs_params_encrypted ← for_each (field_call "encrypt") rhs_params;
    let params := lhs_params ++ rhs_params_encrypted in
    op ← lift (of_option (operators !! lookup_name) (KeyError lookup_name));
    op_rhs ← lift (py_format op [rhs]);
    let result := lhs +:+ op_rhs in
    mret (result, params).

(** The lookups registered on [BaseEncryptedField]. *)
Definition registered_lookups : list string :=
  ["exact"; "gt"; "gte"; "lt"; "lte"].

(** ** The contract of the cipher engine, as the specification words it

    [encrypt = armor(padAndEncrypt(bytes))] and
    [decrypt = unpadAndDecrypt(dearmor(envelope))], as functions of the
    cipher object alone. *)

(** One block-cipher pass over [data], in a context of its own. *)
Definition block_encrypt (c : Cipher) (data : list byte) : result (list byte) :=
  ctx ← Cipher_new (cipher_class c) (cipher_key c) MODE_CBC
          (zero_block (block_size (cipher_class c)));
  rmap fst (cbc_encrypt ctx data).

Definition block_decrypt (c : Cipher) (data : list byte) : result (list byte) :=
  ctx ← Cipher_new (cipher_class c) (cipher_key c) MODE_CBC
          (zero_block (block_size (cipher_class c)));
  rmap fst (cbc_decrypt ctx data).

Definition spec_encrypt (c : Cipher) (value : pyval) : result pyval :=
  raw ← force_bytes value (charset c);
  enc ← block_encrypt c (pad raw (block_size (cipher_class c)));
  OK (PStr (armor enc Cipher_versioned)).

Definition spec_decrypt (c : Cipher) (envelope : pyval) : result (list byte) :=
  raw ← dearmor envelope Cipher_check_armor;
  dec ← block_decrypt c raw;
  unpad dec (block_size (cipher_class c)).

(** What one [encrypt] and one [decrypt] ask of the cipher library. *)
Definition encrypt_calls (c : Cipher) (raw : list byte) : list crypto_call :=
  [CallNew (cipher_key c) (zero_block (block_size (cipher_class c)));
   CallEncrypt (pad raw (block_size (cipher_class c)))].

Definition decrypt_calls (c : Cipher) (dearmored : list byte)
    : list crypto_call :=
  [CallNew (cipher_key c) (zero_block (block_size (cipher_class c)));
   CallDecrypt dearmored].

(** The key an assignment to [cipher_key] stores. *)
Definition stored_key (c : Cipher) (value : pyval) : result pyval :=
  if String.eqb (name c) "AES" then
    value' ← match value with
             | PStr t => rmap PBytes (py_encode (charset c) t)
             | _ => OK value
             end;
    aes_pad_key value'
  else OK value.

Definition with_key (c : Cipher) (key : pyval) : Cipher :=
  {| name := name c; cipher_key := key; charset := charset c;
     cipher_class := cipher_class c |}.

(** Two states of a field with the same class and the same cipher
    object, the second with a record of library calls that extends the
    first. *)
Definition same_field (w w' : Field) : Prop :=
  cls w' = cls w /\ cipher w' = cipher w
  /\ exists more, calls w' = calls w ++ more.

(** ** What the statements ask of the collaborators *)

(** A codec decodes what it encoded. *)
Definition codec_round_trip (c : Codec) : Prop :=
  forall s b, encode c s = OK b -> decode c b = OK s.

(** A cipher module permutes blocks: on a block, [encrypt_block] keeps
    the length and [decrypt_block] undoes it. *)
Definition block_cipher_laws (m : CipherModule) (key : list byte) : Prop :=
  forall b, length b = block_size m ->
    length (encrypt_block m key b) = block_size m
    /\ decrypt_block m key (encrypt_block m key b) = b.

(** [pad] fills to a whole number of blocks and [unpad] strips it. *)
Definition padding_laws (bs : nat) : Prop :=
  forall b, length (pad b bs) mod bs = 0 /\ unpad (pad b bs) bs = OK b.

(** [dearmor] reads back what [armor] wrote, whatever the two flags. *)
Definition armor_laws : Prop :=
  forall b versioned verify, dearmor (PStr (armor b versioned)) verify = OK b.

(** [pad] always appends: a padded byte string is never empty. *)
Definition padding_nonempty (bs : nat) : Prop :=
  forall b, pad b bs <> [].

(** [is_encrypted] accepts what [armor] writes for a ciphertext that is
    not empty, and that text is not empty either. *)
Definition detects_envelopes : Prop :=
  forall b, b <> [] ->
    is_encrypted (PStr (armor b Cipher_versioned)) = true
    /\ armor b Cipher_versioned <> "".

(** ** Saving and reading through a field *)

(** What a save stores and a later read of that stored value returns. *)
Definition save_then_read (value : pyval) : M pyval :=
  stored ← BaseEncryptedField_get_db_prep_save value;
  to_python stored.

(** The parser a typed field class applies to the decrypted text. *)
Definition typed_parser (c : FieldClass) : option (pyval -> result pyval) :=
  match c with
  | EncryptedIntegerField => Some py_int
  | EncryptedDecimalField => Some py_Decimal
  | EncryptedDateField => Some DateField_to_python
  | EncryptedDateTimeField => Some DateTimeField_to_python
  | _ => None
  end.

(** ** The save hook of the date fields *)

(** [self._get_auto_now_value()]: [datetime.date.today()], and
    [timezone.now()] in the date-time class; [today] and [now] are the
    two readings of the clock. *)
Definition get_auto_now_value (c : FieldClass) (today now : pyval) : pyval :=
  match c with
  | EncryptedDateTimeField => now
  | _ => today
  end.

(** [EncryptedDateField.pre_save(model_instance, add)]. The model instance
    is the dictionary of its attributes; [models.Field.pre_save], which the
    other branch defers to, is [getattr(model_instance, self.attname)]. *)
Definition EncryptedDateField_pre_save (c : FieldClass)
    (auto_now auto_now_add : bool) (attname : string) (today now : pyval)
    (model_instance : gmap string pyval) (add : bool)
    : result (pyval * gmap string pyval) :=
  if auto_now || (auto_now_add && add) then
    let value := get_auto_now_value c today now in
    OK (value, <[attname := value]> model_instance)
  else
    value ← of_option (model_instance !! attname) (AttributeError attname);
    OK (value, model_instance).

(** ** Describing the field to migrations *)

(** [BaseEncryptedField.deconstruct]: [super_deconstruct] is what
    [models.Field.deconstruct] returned, the name, the path, the positional
    and the keyword arguments; the charset of the cipher is put among the
    keyword arguments. *)
Definition BaseEncryptedField_deconstruct
    (super_deconstruct : string * string * list pyval * gmap string pyval)
    : M (string * string * list pyval * gmap string pyval) :=
  let '(name, path, args, kwargs) := super_deconstruct in
  self ← get_cipher_object;
  mret (name, path, args, <["charset" := PStr (charset self)]> kwargs).

(** ** Formatting *)

Example py_format_operator : py_format "> %s" ["%s"] = OK "> %s".
Proof. reflexivity. Qed.

Example py_format_escaped_percent :
  py_format "decrypt(%s, %%s)" ["col"] = OK "decrypt(col, %s)".
Proof. reflexivity. Qed.

Example py_format_missing_argument : py_format "%s %s" ["a"] = Raise TypeError.
Proof. reflexivity. Qed.

(** ** Bytes and chaining *)

Lemma xor_bits_involutive x y : xor_bits (xor_bits x y) y = x.
Proof.
  destruct x as (x0 & x1 & x2 & x3 & x4 & x5 & x6 & x7).
  destruct y as (y0 & y1 & y2 & y3 & y4 & y5 & y6 & y7).
  assert (H : forall a b, xorb (xorb a b) b = a) by (by intros [] []).
  cbn. by rewrite !H.
Qed.

Lemma byte_xor_involutive a b : byte_xor (byte_xor a b) b = a.
Proof.
  unfold byte_xor.
  rewrite Byte.to_bits_of_bits, xor_bits_involutive.
  apply Byte.of_bits_to_bits.
Qed.

Lemma length_bytes_xor a b :
  length (bytes_xor a b) = length a `min` length b.
Proof. apply length_zip_with. Qed.

Lemma bytes_xor_involutive a b :
  length a <= length b -> bytes_xor (bytes_xor a b) b = a.
Proof.
  revert b. induction a as [|x a IH]; intros [|y b] Hlen; simpl in *;
    try done; try lia.
  rewrite byte_xor_involutive. f_equal. apply IH. lia.
Qed.

Section Chaining.
Variables (E D : list byte -> list byte) (bs : nat).
Hypothesis ED : forall b, length b = bs -> length (E b) = bs /\ D (E b) = b.

Lemma cbc_encrypt_blocks_length n prev data :
  length prev = bs -> length data = n * bs ->
  length (cbc_encrypt_blocks E bs n prev data).1 = n * bs.
Proof using ED.
  revert prev data. induction n as [|n IH]; intros prev data Hp Hd; [done|].
  simpl.
  destruct (cbc_encrypt_blocks E bs n _ (drop bs data)) as [cs lst] eqn:Hrec.
  simpl. rewrite length_app.
  assert (Hb : length (bytes_xor (take bs data) prev) = bs).
  { rewrite length_bytes_xor, length_take. simpl in Hd. lia. }
  destruct (ED _ Hb) as [Hl _]. rewrite Hl.
  specialize (IH (E (bytes_xor (take bs data) prev)) (drop bs data) Hl).
  rewrite Hrec in IH. simpl in IH. rewrite IH; [done|].
  rewrite length_drop. simpl in Hd. lia.
Qed.

Lemma cbc_blocks_round_trip n prev data :
  length prev = bs -> length data = n * bs ->
  (cbc_decrypt_blocks D bs n prev
     (cbc_encrypt_blocks E bs n prev data).1).1 = data.
Proof using ED.
  revert prev data. induction n as [|n IH]; intros prev data Hp Hd.
  { simpl. destruct data; [done | simpl in Hd; lia]. }
  simpl.
  destruct (cbc_encrypt_blocks E bs n _ (drop bs data)) as [cs lst] eqn:Hrec.
  simpl.
  assert (Ht : length (take bs data) = bs).
  { rewrite length_take. simpl in Hd. lia. }
  assert (Hb : length (bytes_xor (take bs data) prev) = bs).
  { rewrite length_bytes_xor. lia. }
  destruct (ED _ Hb) as [Hl HD].
  rewrite take_app_length' by done. rewrite drop_app_length' by done.
  specialize (IH (E (bytes_xor (take bs data) prev)) (drop bs data) Hl).
  rewrite Hrec in IH. simpl in IH.
  destruct (cbc_decrypt_blocks D bs n _ cs) as [ps lst'] eqn:Hdec.
  simpl in *. rewrite HD, bytes_xor_involutive by lia.
  rewrite IH; [apply take_drop|].
  rewrite length_drop. simpl in Hd. lia.
Qed.
End Chaining.

(** ** One block-cipher pass and its inverse *)

Lemma length_zero_block n : length (zero_block n) = n.
Proof. apply length_replicate. Qed.

Lemma Cipher_new_ok (c : Cipher) k :
  cipher_key c = PBytes k ->
  key_size (cipher_class c) (length k) = true ->
  Cipher_new (cipher_class c) (cipher_key c) MODE_CBC
    (zero_block (block_size (cipher_class c)))
  = OK {| cbc_module := cipher_class c; cbc_key := k;
          cbc_iv := zero_block (block_size (cipher_class c)) |}.
Proof.
  intros -> Hk. unfold Cipher_new.
  by rewrite Hk, length_zero_block, Nat.eqb_refl.
Qed.

Lemma whole_blocks n bs : n mod bs = 0 -> n = n / bs * bs.
Proof. intros H. pose proof (Nat.div_mod_eq n bs). lia. Qed.

Lemma block_round_trip (c : Cipher) k data :
  cipher_key c = PBytes k ->
  key_size (cipher_class c) (length k) = true ->
  block_cipher_laws (cipher_class c) k ->
  length data mod block_size (cipher_class c) = 0 ->
  exists enc,
    block_encrypt c data = OK enc /\ block_decrypt c enc = OK data.
Proof.
  intros Hkey Hk Hlaws Hmod.
  unfold block_encrypt, block_decrypt.
  rewrite (Cipher_new_ok c k Hkey Hk).
  unfold mbind, result_bind, rbind, rmap, cbc_encrypt, cbc_decrypt. simpl.
  set (bs := block_size (cipher_class c)) in *.
  set (E := encrypt_block (cipher_class c) k).
  set (D := decrypt_block (cipher_class c) k).
  set (n := length data / bs).
  pose proof (whole_blocks _ _ Hmod) as Hlen. fold n in Hlen.
  rewrite Hmod. simpl.
  pose proof (cbc_encrypt_blocks_length E D bs Hlaws n (zero_block bs) data
                (length_zero_block bs) Hlen) as Henc.
  pose proof (cbc_blocks_round_trip E D bs Hlaws n (zero_block bs) data
                (length_zero_block bs) Hlen) as Hrt.
  destruct (cbc_encrypt_blocks E bs n (zero_block bs) data) as [enc lst].
  simpl in *. exists enc. split; [done|].
  assert (Hn : length enc / bs = n).
  { rewrite Henc. destruct bs as [|bs']; [|by apply Nat.div_mul].
    subst n. by simpl. }
  assert (Hm : length enc mod bs = 0).
  { rewrite Henc. apply Nat.Div0.mod_mul. }
  rewrite Hm, Hn. simpl.
  destruct (cbc_decrypt_blocks D bs n (zero_block bs) enc) as [dec lst'].
  simpl in *. by subst dec.
Qed.

(** ** The methods of [Cipher] against the contract *)

(** Unfolds the monad of the field down to the pairs it stands for. *)
Ltac run_M :=
  unfold mbind, M_bind, result_bind, lift, raise, get_class,
    get_cipher_object, set_cipher_object, log_call, mret, M_ret, result_ret,
    rbind, rmap; simpl.

Lemma Cipher_encrypt_result value w :
  (Cipher_encrypt value w).1 = spec_encrypt (cipher w) value.
Proof.
  unfold Cipher_encrypt, spec_encrypt, Cipher_get_cipher, block_encrypt.
  run_M.
  destruct (force_bytes _ _) as [raw|e]; simpl; [|done].
  destruct (Cipher_new _ _ _ _) as [ctx|e]; simpl; [|done].
  by destruct (cbc_encrypt _ _) as [[enc ctx']|e].
Qed.

Lemma Cipher_decrypt_result value w :
  (Cipher_decrypt value w).1 =
    (raw ← spec_decrypt (cipher w) value;
     text ← py_decode (charset (cipher w)) raw;
     OK (PStr text)).
Proof.
  unfold Cipher_decrypt, spec_decrypt, Cipher_get_cipher, block_decrypt.
  run_M.
  destruct (dearmor _ _) as [raw|e]; simpl; [|done].
  destruct (Cipher_new _ _ _ _) as [ctx|e]; simpl; [|done].
  destruct (cbc_decrypt _ _) as [[dec ctx']|e]; simpl; [|done].
  destruct (unpad _ _) as [u|e]; simpl; [|done].
  by destruct (py_decode _ _) as [t|e].
Qed.

Lemma same_field_refl w : same_field w w.
Proof. repeat split. exists []. by rewrite app_nil_r. Qed.

Lemma same_field_trans w1 w2 w3 :
  same_field w1 w2 -> same_field w2 w3 -> same_field w1 w3.
Proof.
  intros (Hc & Hi & l & Hl) (Hc' & Hi' & l' & Hl').
  repeat split; [congruence..|].
  exists (l ++ l'). by rewrite Hl', Hl, app_assoc.
Qed.

Lemma Cipher_encrypt_frame value w : same_field w (Cipher_encrypt value w).2.
Proof.
  unfold Cipher_encrypt, Cipher_get_cipher. run_M.
  destruct (force_bytes _ _) as [raw|e]; simpl; [|apply same_field_refl].
  destruct (Cipher_new _ _ _ _) as [ctx|e]; simpl.
  - destruct (cbc_encrypt _ _) as [[enc ctx']|e]; simpl;
      (repeat split; eexists; by rewrite <- app_assoc).
  - repeat split. by eexists.
Qed.

Lemma Cipher_decrypt_frame value w : same_field w (Cipher_decrypt value w).2.
Proof.
  unfold Cipher_decrypt, Cipher_get_cipher. run_M.
  destruct (dearmor _ _) as [raw|e]; simpl; [|apply same_field_refl].
  destruct (Cipher_new _ _ _ _) as [ctx|e]; simpl;
    [|repeat split; by eexists].
  destruct (cbc_decrypt _ _) as [[dec ctx']|e]; simpl;
    [|repeat split; eexists; by rewrite <- app_assoc].
  destruct (unpad _ _) as [u|e]; simpl;
    [|repeat split; eexists; by rewrite <- app_assoc].
  destruct (py_decode _ _) as [t|e]; simpl;
    repeat split; eexists; by rewrite <- app_assoc.
Qed.

(** A successful [encrypt] made exactly one context, zero IV, and one
    [encrypt] call on it; likewise a successful [decrypt]. *)
Lemma Cipher_encrypt_calls value w e w' :
  Cipher_encrypt value w = (OK e, w') ->
  exists raw, force_bytes value (charset (cipher w)) = OK raw
    /\ calls w' = calls w ++ encrypt_calls (cipher w) raw.
Proof.
  unfold Cipher_encrypt, Cipher_get_cipher, encrypt_calls. run_M.
  destruct (force_bytes _ _) as [raw|?]; simpl; [|done].
  destruct (Cipher_new _ _ _ _) as [ctx|?]; simpl; [|done].
  destruct (cbc_encrypt _ _) as [[enc ctx']|?]; simpl; [|done].
  intros [= <- <-]. exists raw. simpl. by rewrite <- app_assoc.
Qed.

Lemma Cipher_decrypt_calls value w t w' :
  Cipher_decrypt value w = (OK t, w') ->
  exists raw, dearmor value Cipher_check_armor = OK raw
    /\ calls w' = calls w ++ decrypt_calls (cipher w) raw.
Proof.
  unfold Cipher_decrypt, Cipher_get_cipher, decrypt_calls. run_M.
  destruct (dearmor _ _) as [raw|?]; simpl; [|done].
  destruct (Cipher_new _ _ _ _) as [ctx|?]; simpl; [|done].
  destruct (cbc_decrypt _ _) as [[dec ctx']|?]; simpl; [|done].
  destruct (unpad _ _) as [u|?]; simpl; [|done].
  destruct (py_decode _ _) as [s|?]; simpl; [|done].
  intros [= <- <-]. exists raw. simpl. by rewrite <- app_assoc.
Qed.

(** The contract composed with itself: what [spec_encrypt] produced,
    [spec_decrypt] reads back to the bytes that were encrypted. *)
Lemma spec_round_trip (c : Cipher) k raw :
  cipher_key c = PBytes k ->
  key_size (cipher_class c) (length k) = true ->
  block_cipher_laws (cipher_class c) k ->
  padding_laws (block_size (cipher_class c)) ->
  armor_laws ->
  exists enc,
    block_encrypt c (pad raw (block_size (cipher_class c))) = OK enc
    /\ spec_decrypt c (PStr (armor enc Cipher_versioned)) = OK raw.
Proof.
  intros Hkey Hk Hblock Hpad Harmor.
  destruct (Hpad raw) as [Hmod Hunpad].
  destruct (block_round_trip c k _ Hkey Hk Hblock Hmod) as (enc & He & Hd).
  exists enc. split; [done|].
  unfold spec_decrypt. rewrite Harmor. simpl.
  unfold mbind, result_bind, rbind. by rewrite Hd.
Qed.

Lemma spec_encrypt_inv (c : Cipher) value e :
  spec_encrypt c value = OK e ->
  exists raw enc,
    force_bytes value (charset c) = OK raw
    /\ block_encrypt c (pad raw (block_size (cipher_class c))) = OK enc
    /\ e = PStr (armor enc Cipher_versioned).
Proof.
  unfold spec_encrypt, mbind, result_bind, rbind.
  destruct (force_bytes _ _) as [raw|?]; simpl; [|intros [=]].
  destruct (block_encrypt _ _) as [enc|?] eqn:He; simpl; [|intros [=]].
  intros [= <-]. by exists raw, enc.
Qed.

Lemma py_encode_decode encoding c text raw :
  codecs encoding = Some c -> codec_round_trip c ->
  py_encode encoding text = OK raw -> py_decode encoding raw = OK text.
Proof.
  unfold py_encode, py_decode. intros -> Hc. simpl. apply Hc.
Qed.

(** C1. Round trip: with a key the cipher module accepts and a text the
    configured charset encodes, [encrypt] returns an envelope and
    [decrypt] of that envelope returns the text. *)
Theorem decrypt_encrypt_round_trip (w : Field) (k : list byte) (c : Codec)
    (text : string) (raw : list byte) :
  cipher_key (cipher w) = PBytes k ->
  key_size (cipher_class (cipher w)) (length k) = true ->
  block_cipher_laws (cipher_class (cipher w)) k ->
  padding_laws (block_size (cipher_class (cipher w))) ->
  armor_laws ->
  codecs (charset (cipher w)) = Some c ->
  codec_round_trip c ->
  encode c text = OK raw ->
  exists envelope w1 w2,
    Cipher_encrypt (PStr text) w = (OK envelope, w1)
    /\ Cipher_decrypt envelope w1 = (OK (PStr text), w2).
Proof.
  intros Hkey Hk Hblock Hpad Harmor Hcodec Hrt Henc.
  destruct (spec_round_trip (cipher w) k raw Hkey Hk Hblock Hpad Harmor)
    as (enc & He & Hd).
  assert (Hraw : py_encode (charset (cipher w)) text = OK raw).
  { unfold py_encode. by rewrite Hcodec. }
  destruct (Cipher_encrypt (PStr text) w) as [r w1] eqn:Hrun.
  pose proof (Cipher_encrypt_result (PStr text) w) as Hr.
  pose proof (Cipher_encrypt_frame (PStr text) w) as (_ & Hsame & _).
  rewrite Hrun in Hr, Hsame. simpl in Hr, Hsame.
  unfold spec_encrypt, force_bytes in Hr. rewrite Hraw in Hr. simpl in Hr.
  unfold mbind, result_bind, rbind in Hr. rewrite He in Hr. subst r.
  destruct (Cipher_decrypt (PStr (armor enc Cipher_versioned)) w1)
    as [r2 w2] eqn:Hrun2.
  pose proof (Cipher_decrypt_result (PStr (armor enc Cipher_versioned)) w1)
    as Hr2.
  rewrite Hrun2, Hsame, Hd in Hr2. simpl in Hr2.
  rewrite (py_encode_decode _ c text raw Hcodec Hrt Hraw) in Hr2.
  simpl in Hr2. subst r2.
  by exists (PStr (armor enc Cipher_versioned)), w1, w2.
Qed.

(** C2, as the code has it. [encrypt] is exactly armor of the block
    encryption of the padded bytes; [decrypt] is dearmor, block decryption
    and unpad in that order, followed by the decoding of the bytes to text
    with the configured charset. On success each made one context and one
    call on it, with the padded (dearmored) bytes. *)
Theorem Cipher_pipeline (value envelope : pyval) (w : Field) :
  (Cipher_encrypt value w).1 = spec_encrypt (cipher w) value
  /\ (Cipher_decrypt envelope w).1 =
       (raw ← spec_decrypt (cipher w) envelope;
        text ← py_decode (charset (cipher w)) raw;
        OK (PStr text))
  /\ (forall e w', Cipher_encrypt value w = (OK e, w') ->
        exists raw, force_bytes value (charset (cipher w)) = OK raw
          /\ calls w' = calls w ++ encrypt_calls (cipher w) raw)
  /\ (forall t w', Cipher_decrypt envelope w = (OK t, w') ->
        exists raw, dearmor envelope Cipher_check_armor = OK raw
          /\ calls w' = calls w ++ decrypt_calls (cipher w) raw).
Proof.
  split; [apply Cipher_encrypt_result|].
  split; [apply Cipher_decrypt_result|].
  split; intros ? ?; [apply Cipher_encrypt_calls | apply Cipher_decrypt_calls].
Qed.

(** C9. Determinism: two successful encryptions under the same cipher
    object, whatever was done with the field before, give the same
    envelope exactly when the two values are the same plaintext, that is
    the same bytes in the configured charset; for two texts, exactly when
    the texts are equal. Each run made its own context with an all-zero
    IV. *)
Theorem encrypt_deterministic (w w' w1 w1' : Field) (k : list byte)
    (c : Codec) (v1 v2 e1 e2 : pyval) :
  cipher w' = cipher w ->
  cipher_key (cipher w) = PBytes k ->
  key_size (cipher_class (cipher w)) (length k) = true ->
  block_cipher_laws (cipher_class (cipher w)) k ->
  padding_laws (block_size (cipher_class (cipher w))) ->
  armor_laws ->
  codecs (charset (cipher w)) = Some c ->
  codec_round_trip c ->
  Cipher_encrypt v1 w = (OK e1, w1) ->
  Cipher_encrypt v2 w' = (OK e2, w1') ->
  (e1 = e2 <->
     force_bytes v1 (charset (cipher w)) = force_bytes v2 (charset (cipher w)))
  /\ (forall t1 t2, v1 = PStr t1 -> v2 = PStr t2 -> (e1 = e2 <-> v1 = v2))
  /\ (exists raw1 raw2,
        calls w1 = calls w ++
          [CallNew (PBytes k) (zero_block (block_size (cipher_class (cipher w))));
           CallEncrypt (pad raw1 (block_size (cipher_class (cipher w))))]
        /\ calls w1' = calls w' ++
          [CallNew (PBytes k) (zero_block (block_size (cipher_class (cipher w))));
           CallEncrypt (pad raw2 (block_size (cipher_class (cipher w))))]).
Proof.
  intros Hsame Hkey Hk Hblock Hpad Harmor Hcodec Hrt Hrun1 Hrun2.
  pose proof (Cipher_encrypt_result v1 w) as Hr1.
  pose proof (Cipher_encrypt_result v2 w') as Hr2.
  rewrite Hrun1 in Hr1. rewrite Hrun2, Hsame in Hr2. simpl in Hr1, Hr2.
  symmetry in Hr1, Hr2.
  destruct (spec_encrypt_inv _ _ _ Hr1) as (raw1 & enc1 & Hraw1 & He1 & Heq1).
  destruct (spec_encrypt_inv _ _ _ Hr2) as (raw2 & enc2 & Hraw2 & He2 & Heq2).
  assert (Hbytes : e1 = e2 <-> raw1 = raw2).
  { split.
    - intros Hee.
      destruct (spec_round_trip (cipher w) k raw1 Hkey Hk Hblock Hpad Harmor)
        as (enc1' & He1' & Hd1).
      destruct (spec_round_trip (cipher w) k raw2 Hkey Hk Hblock Hpad Harmor)
        as (enc2' & He2' & Hd2).
      assert (enc1' = enc1) as -> by congruence.
      assert (enc2' = enc2) as -> by congruence.
      rewrite <- Heq1 in Hd1. rewrite <- Heq2 in Hd2. congruence.
    - intros ->. congruence. }
  split; [|split].
  - rewrite Hraw1, Hraw2, Hbytes. split; [by intros -> | by intros [=]].
  - intros t1 t2 -> ->. rewrite Hbytes. split; [|by intros [= ->]; congruence].
    intros ->. simpl in Hraw1, Hraw2.
    pose proof (py_encode_decode _ c t1 raw2 Hcodec Hrt Hraw1).
    pose proof (py_encode_decode _ c t2 raw2 Hcodec Hrt Hraw2).
    congruence.
  - destruct (Cipher_encrypt_calls _ _ _ _ Hrun1) as (r1 & _ & Hc1).
    destruct (Cipher_encrypt_calls _ _ _ _ Hrun2) as (r2 & _ & Hc2).
    exists r1, r2. unfold encrypt_calls in *.
    rewrite Hsame in Hc2. rewrite Hkey in Hc1, Hc2. done.
Qed.

(** ** The fields *)

(** C3. Pass-through: a stored value that [is_encrypted] rejects comes
    back from [BaseEncryptedField.to_python] as it is; nothing is raised
    and the field, its record of cipher-library calls included, is left
    as it was. *)
Theorem to_python_pass_through (value : pyval) (w : Field) :
  is_encrypted value = false ->
  BaseEncryptedField_to_python value w = (OK value, w).
Proof. intros H. unfold BaseEncryptedField_to_python. by rewrite H. Qed.

(** C4. An envelope is not encrypted again: [get_db_prep_save] returns a
    value that [is_encrypted] accepts unchanged without calling the
    cipher, so preparing it for save a second time gives the same stored
    value as the first. *)
Theorem get_db_prep_save_keeps_envelope (value : pyval) (w : Field) :
  is_encrypted value = true ->
  BaseEncryptedField_get_db_prep_save value w = (OK value, w)
  /\ (once ← BaseEncryptedField_get_db_prep_save value;
       BaseEncryptedField_get_db_prep_save once) w = (OK value, w).
Proof.
  intros H.
  assert (Hone : BaseEncryptedField_get_db_prep_save value w = (OK value, w)).
  { unfold BaseEncryptedField_get_db_prep_save.
    by rewrite H, andb_false_r. }
  split; [done|].
  unfold mbind, M_bind at 1. by rewrite Hone.
Qed.

(** Saving is idempotent on every value once [is_encrypted] recognises
    what [armor] writes. *)
Lemma get_db_prep_save_idempotent (value stored : pyval) (w w' : Field) :
  (forall b, is_encrypted (PStr (armor b Cipher_versioned)) = true) ->
  BaseEncryptedField_get_db_prep_save value w = (OK stored, w') ->
  BaseEncryptedField_get_db_prep_save stored w' = (OK stored, w').
Proof.
  intros Hdetect. unfold BaseEncryptedField_get_db_prep_save at 1.
  destruct (truthy value && negb (is_encrypted value)) eqn:Hcond.
  - unfold Cipher_encrypt, Cipher_get_cipher. run_M.
    destruct (force_bytes _ _) as [raw|?]; simpl; [|intros [=]].
    destruct (Cipher_new _ _ _ _) as [ctx|?]; simpl; [|intros [=]].
    destruct (cbc_encrypt _ _) as [[enc ctx']|?]; simpl; [|intros [=]].
    intros [= <- <-]. unfold BaseEncryptedField_get_db_prep_save.
    by rewrite Hdetect, andb_false_r.
  - intros [= <- <-]. unfold BaseEncryptedField_get_db_prep_save.
    by rewrite Hcond.
Qed.

Lemma BaseEncryptedField_to_python_frame value w :
  same_field w (BaseEncryptedField_to_python value w).2.
Proof.
  unfold BaseEncryptedField_to_python.
  destruct (is_encrypted value);
    [apply Cipher_decrypt_frame | apply same_field_refl].
Qed.

Lemma to_python_frame value w : same_field w (to_python value w).2.
Proof.
  unfold to_python, EncryptedIntegerField_to_python,
    EncryptedDecimalField_to_python, EncryptedDateField_to_python.
  pose proof (BaseEncryptedField_to_python_frame value w) as Hb.
  run_M.
  destruct (cls w); try done;
    repeat match goal with
           | |- context [if ?b then _ else _] => destruct b; simpl
           end;
    try apply same_field_refl;
    destruct (BaseEncryptedField_to_python value w) as [[?|?] ?]; simpl in *;
    try done;
    match goal with |- context [?f ?a] =>
      match type of (f a) with result pyval => by destruct (f a) end
    end.
Qed.

Lemma get_db_prep_save_frame value w :
  same_field w (BaseEncryptedField_get_db_prep_save value w).2.
Proof.
  unfold BaseEncryptedField_get_db_prep_save.
  destruct (_ && _); [apply Cipher_encrypt_frame | apply same_field_refl].
Qed.

Lemma Cipher_set_cipher_key_run value w :
  Cipher_set_cipher_key value w =
    match stored_key (cipher w) value with
    | OK key =>
        (OK tt, {| cls := cls w; cipher := with_key (cipher w) key;
                   calls := calls w |})
    | Raise e => (Raise e, w)
    end.
Proof.
  unfold Cipher_set_cipher_key, stored_key, with_key. run_M.
  destruct (String.eqb _ _); [|done].
  destruct value as [| |t| |]; simpl; try by destruct (aes_pad_key _).
  destruct (py_encode _ _); simpl; [|done]. by destruct (aes_pad_key _).
Qed.

Lemma from_db_value_run value context w :
  BaseEncryptedField_from_db_value value context w =
    match stored_key (cipher w)
            (default (cipher_key (cipher w)) (context !! "cipher_key")) with
    | OK key =>
        to_python value
          {| cls := cls w; cipher := with_key (cipher w) key;
             calls := calls w |}
    | Raise e => (Raise e, w)
    end.
Proof.
  unfold BaseEncryptedField_from_db_value.
  unfold mbind at 1, M_bind at 1, get_cipher_object at 1. simpl.
  unfold mbind at 1, M_bind at 1. rewrite Cipher_set_cipher_key_run.
  by destruct (stored_key _ _).
Qed.

(** C10. A read assigns the context's [cipher_key] (the current key when
    the context has none) to the cipher object of the field before it
    decodes: the decoding runs on the field with the assigned key, the
    key is still there when the read is over, whatever its outcome, and
    the next save and the next read on the field work with it. *)
Theorem from_db_value_assigns_key (value : pyval)
    (context : gmap string pyval) (w : Field) (key : pyval) :
  stored_key (cipher w)
    (default (cipher_key (cipher w)) (context !! "cipher_key")) = OK key ->
  let assigned := with_key (cipher w) key in
  let after := (BaseEncryptedField_from_db_value value context w).2 in
  BaseEncryptedField_from_db_value value context w =
    to_python value {| cls := cls w; cipher := assigned; calls := calls w |}
  /\ cipher after = assigned
  /\ (forall v,
        (BaseEncryptedField_get_db_prep_save v after).1 =
          if truthy v && negb (is_encrypted v) then spec_encrypt assigned v
          else OK v)
  /\ (forall v,
        (BaseEncryptedField_to_python v after).1 =
          if is_encrypted v then
            raw ← spec_decrypt assigned v;
            text ← py_decode (charset assigned) raw;
            OK (PStr text)
          else OK v).
Proof.
  intros Hkey assigned after.
  assert (Hrun : BaseEncryptedField_from_db_value value context w =
    to_python value {| cls := cls w; cipher := assigned; calls := calls w |}).
  { rewrite from_db_value_run. by rewrite Hkey. }
  assert (Hafter : cipher after = assigned).
  { unfold after. rewrite Hrun.
    by destruct (to_python_frame value
         {| cls := cls w; cipher := assigned; calls := calls w |})
      as (_ & -> & _). }
  split; [done|]. split; [done|]. split; intros v.
  - unfold BaseEncryptedField_get_db_prep_save.
    destruct (_ && _); [|done].
    by rewrite Cipher_encrypt_result, Hafter.
  - unfold BaseEncryptedField_to_python.
    destruct (is_encrypted v); [|done].
    by rewrite Cipher_decrypt_result, Hafter.
Qed.

(** X22. When the assignment of the key itself raises (a text key the
    charset does not encode, a value [aes_pad_key] refuses), the read
    raises the same, nothing was decoded and the field keeps its key. *)
Lemma from_db_value_key_error value context w e :
  stored_key (cipher w)
    (default (cipher_key (cipher w)) (context !! "cipher_key")) = Raise e ->
  BaseEncryptedField_from_db_value value context w = (Raise e, w).
Proof. intros H. rewrite from_db_value_run. by rewrite H. Qed.

(** [Cipher.__init__] keeps the key argument as it is. *)
Lemma Cipher_init_stores_key name key charset c :
  Cipher_init name key charset = OK c -> cipher_key c = key.
Proof.
  unfold Cipher_init. case_bool_decide; [|done].
  destruct (Cryptodome name); simpl; [|done]. by intros [= <-].
Qed.

(** ** The lookups *)

(** C7. On the generic backend every lookup but [exact] (so [gt], [gte],
    [lt] and [lte]) is refused with [NotImplementedError] as the first
    thing [as_sql] does: whatever the two sides compile to, and with the
    field and its record of cipher calls untouched. *)
Theorem as_sql_rejects_other_lookups (lookup_name : string)
    (process_lhs process_rhs : result (string * list pyval))
    (operators : gmap string string) (w : Field) :
  lookup_name <> "exact" ->
  EncryptedLookup_as_sql lookup_name process_lhs process_rhs operators w =
    (Raise (NotImplementedError
              ("Vendor 'sql' does not support lookup '" +:+ lookup_name +:+ "'")),
     w).
Proof.
  intros Hne. unfold EncryptedLookup_as_sql.
  apply String.eqb_neq in Hne. by rewrite Hne.
Qed.

Lemma encrypt_not_defined_here c : defined_here c "encrypt" = false.
Proof. by destruct c. Qed.

Lemma for_each_raise {A B} (f : A -> M B) x xs w e w' :
  f x w = (Raise e, w') -> for_each f (x :: xs) w = (Raise e, w').
Proof. intros H. simpl. unfold mbind, M_bind. by rewrite H. Qed.

Lemma field_call_encrypt param w :
  models_Field_attr "encrypt" = None ->
  field_call "encrypt" param w = (Raise (AttributeError "encrypt"), w).
Proof.
  intros Hnone. unfold field_call, mbind, M_bind, get_class.
  by rewrite encrypt_not_defined_here, Hnone.
Qed.

(** [as_sql] for [exact] with at least one operand parameter: the call
    of [encrypt] on the field finds no such attribute. *)
Lemma as_sql_exact_attribute_error lhs lhs_params rhs param rhs_params
    operators w :
  models_Field_attr "encrypt" = None ->
  EncryptedLookup_as_sql "exact" (OK (lhs, lhs_params))
    (OK (rhs, param :: rhs_params)) operators w =
    (Raise (AttributeError "encrypt"), w).
Proof.
  intros Hnone. unfold EncryptedLookup_as_sql.
  change (negb ("exact" =? "exact")) with false. cbv iota.
  unfold mbind, M_bind, lift.
  by rewrite (for_each_raise _ _ _ _ _ _ (field_call_encrypt param w Hnone)).
Qed.

(** X21. [as_sql] for [exact] when the right side has no parameters (a
    column compared to a column): no attribute of the field is looked up,
    the text is the left side followed directly by the operator applied to
    the right side, the parameters are those of the left side, and the
    field is left as it was. *)
Lemma as_sql_exact_no_params lhs lhs_params rhs op op_rhs operators w :
  operators !! "exact" = Some op ->
  py_format op [rhs] = OK op_rhs ->
  EncryptedLookup_as_sql "exact" (OK (lhs, lhs_params)) (OK (rhs, []))
    operators w = (OK (lhs +:+ op_rhs, lhs_params ++ []), w).
Proof.
  intros Hop Hfmt. unfold EncryptedLookup_as_sql. simpl. run_M.
  rewrite Hop. simpl. by rewrite Hfmt.
Qed.

Lemma append_empty (s : string) : s +:+ "" = s.
Proof.
  induction s as [|c s IH]; [done|].
  change (String c (s +:+ "") = String c s). by rewrite IH.
Qed.

(** The expression and the parameters [as_postgresql] produces. *)
Lemma as_postgresql_run lookup_name lhs lhs_params rhs rhs_params
    operators op op_rhs cipher_name w :
  operators !! lookup_name = Some op ->
  py_format op [rhs] = OK op_rhs ->
  cipher_names !! name (cipher w) = Some cipher_name ->
  EncryptedLookup_as_postgresql lookup_name (OK (lhs, lhs_params))
    (OK (rhs, rhs_params)) operators w =
    (OK ("convert_from(decrypt(dearmor(" +:+ lhs +:+ "), %s, '"
           +:+ cipher_name +:+ "'), 'utf-8')" +:+ field_cast (cls w)
           +:+ " " +:+ op_rhs,
         lhs_params ++ [cipher_key (cipher w)] ++ rhs_params), w).
Proof.
  intros Hop Hfmt Hname. unfold EncryptedLookup_as_postgresql. run_M.
  rewrite Hop. simpl. rewrite Hfmt. simpl. rewrite Hname. simpl.
  by rewrite append_empty.
Qed.

Lemma as_postgresql_unknown_cipher lookup_name lhs lhs_params rhs rhs_params
    operators op op_rhs w :
  operators !! lookup_name = Some op ->
  py_format op [rhs] = OK op_rhs ->
  cipher_names !! name (cipher w) = None ->
  EncryptedLookup_as_postgresql lookup_name (OK (lhs, lhs_params))
    (OK (rhs, rhs_params)) operators w = (Raise (KeyError (name (cipher w))), w).
Proof.
  intros Hop Hfmt Hname. unfold EncryptedLookup_as_postgresql. run_M.
  rewrite Hop. simpl. rewrite Hfmt. simpl. by rewrite Hname.
Qed.

(** The mapping holds exactly the two names. *)
Lemma cipher_names_spec n sql :
  cipher_names !! n = Some sql <->
  (n = "AES" /\ sql = "aes") \/ (n = "Blowfish" /\ sql = "bf").
Proof.
  unfold cipher_names. split.
  - intros H.
    destruct (decide (n = "AES")) as [->|?];
      [left; by simplify_map_eq|].
    destruct (decide (n = "Blowfish")) as [->|?];
      [right; by simplify_map_eq|].
    by simplify_map_eq.
  - intros [[-> ->]|[-> ->]]; by simplify_map_eq.
Qed.

(** ** Sizes and failures of the cipher methods *)

Lemma block_encrypt_length (c : Cipher) k data enc :
  cipher_key c = PBytes k ->
  block_cipher_laws (cipher_class c) k ->
  block_encrypt c data = OK enc ->
  length enc = length data
  /\ length data mod block_size (cipher_class c) = 0.
Proof.
  intros Hkey Hlaws. unfold block_encrypt, Cipher_new. rewrite Hkey.
  destruct (key_size _ _ && _); simpl; [|intros [=]].
  unfold mbind, result_bind, rbind, rmap, cbc_encrypt. simpl.
  set (bs := block_size (cipher_class c)) in *.
  destruct (length data mod bs =? 0)%nat eqn:Hmod; [|intros [=]].
  apply Nat.eqb_eq in Hmod.
  pose proof (whole_blocks _ _ Hmod) as Hlen.
  pose proof (cbc_encrypt_blocks_length
                (encrypt_block (cipher_class c) k)
                (decrypt_block (cipher_class c) k) bs Hlaws
                (length data / bs) (zero_block bs) data
                (length_zero_block bs) Hlen) as Henc.
  destruct (cbc_encrypt_blocks _ bs _ _ data) as [out lst].
  simpl in *. intros [= <-]. split; [congruence | done].
Qed.

Lemma encrypt_envelope_size_aux value e w w' k :
  cipher_key (cipher w) = PBytes k ->
  block_cipher_laws (cipher_class (cipher w)) k ->
  Cipher_encrypt value w = (OK e, w') ->
  exists raw enc,
    e = PStr (armor enc Cipher_versioned)
    /\ length enc = length (pad raw (block_size (cipher_class (cipher w)))).
Proof.
  intros Hkey Hlaws Hrun.
  pose proof (Cipher_encrypt_result value w) as Hr.
  rewrite Hrun in Hr. simpl in Hr. symmetry in Hr.
  destruct (spec_encrypt_inv _ _ _ Hr) as (raw & enc & Hraw & Henc & ->).
  destruct (block_encrypt_length _ _ _ _ Hkey Hlaws Henc) as [Hlen Hmod].
  by exists raw, enc.
Qed.

(** X1. The envelope of a successful [encrypt] armors a ciphertext as
    long as the padded plaintext, a whole number of blocks. *)
Theorem encrypt_envelope_size (value e : pyval) (w w' : Field) (k : list byte) :
  cipher_key (cipher w) = PBytes k ->
  block_cipher_laws (cipher_class (cipher w)) k ->
  Cipher_encrypt value w = (OK e, w') ->
  exists raw enc,
    force_bytes value (charset (cipher w)) = OK raw
    /\ e = PStr (armor enc Cipher_versioned)
    /\ length enc = length (pad raw (block_size (cipher_class (cipher w))))
    /\ length enc mod block_size (cipher_class (cipher w)) = 0.
Proof.
  intros Hkey Hlaws Hrun.
  pose proof (Cipher_encrypt_result value w) as Hr.
  rewrite Hrun in Hr. simpl in Hr. symmetry in Hr.
  destruct (spec_encrypt_inv _ _ _ Hr) as (raw & enc & Hraw & Henc & ->).
  destruct (block_encrypt_length _ _ _ _ Hkey Hlaws Henc) as [Hlen Hmod].
  exists raw, enc. repeat split; [done..|]. by rewrite Hlen.
Qed.

(** X2. Failures of [encrypt], in the order of its steps: a value the
    charset cannot encode raises before the cipher library is asked for
    anything; a key the library refuses raises when the one context is
    made, and nothing was encrypted. *)
Theorem encrypt_failures (value : pyval) (w : Field) :
  (forall e, force_bytes value (charset (cipher w)) = Raise e ->
     Cipher_encrypt value w = (Raise e, w))
  /\ (forall raw e,
        force_bytes value (charset (cipher w)) = OK raw ->
        Cipher_new (cipher_class (cipher w)) (cipher_key (cipher w)) MODE_CBC
          (zero_block (block_size (cipher_class (cipher w)))) = Raise e ->
        (Cipher_encrypt value w).1 = Raise e
        /\ calls (Cipher_encrypt value w).2 =
             calls w ++
               [CallNew (cipher_key (cipher w))
                  (zero_block (block_size (cipher_class (cipher w))))]).
Proof.
  split.
  - intros e He. unfold Cipher_encrypt. run_M. by rewrite He.
  - intros raw e Hraw Hnew. unfold Cipher_encrypt, Cipher_get_cipher. run_M.
    by rewrite Hraw, Hnew.
Qed.

(** X3. Failures of [decrypt], in the order of its steps: text that does
    not dearmor raises with the field untouched; bytes that do not unpad,
    and unpadded bytes the charset does not decode, raise after the one
    context and the one [decrypt] call on it. No failure is turned into a
    value. *)
Theorem decrypt_failures (value : pyval) (w : Field) :
  (forall e, dearmor value Cipher_check_armor = Raise e ->
     Cipher_decrypt value w = (Raise e, w))
  /\ (forall raw dec e,
        dearmor value Cipher_check_armor = OK raw ->
        block_decrypt (cipher w) raw = OK dec ->
        (dec' ← unpad dec (block_size (cipher_class (cipher w)));
         py_decode (charset (cipher w)) dec') = Raise e ->
        (Cipher_decrypt value w).1 = Raise e
        /\ calls (Cipher_decrypt value w).2 =
             calls w ++ decrypt_calls (cipher w) raw).
Proof.
  split.
  - intros e He. unfold Cipher_decrypt. run_M. by rewrite He.
  - intros raw dec e Hraw Hdec Hfail.
    unfold Cipher_decrypt, Cipher_get_cipher, decrypt_calls. run_M.
    rewrite Hraw. simpl.
    unfold block_decrypt, mbind, result_bind, rbind, rmap in Hdec.
    destruct (Cipher_new _ _ _ _) as [ctx|?]; simpl in *; [|done].
    destruct (cbc_decrypt ctx raw) as [[d ctx']|?]; simpl in *; [|done].
    injection Hdec as ->.
    unfold mbind, result_bind, rbind in Hfail.
    destruct (unpad dec _) as [u|?]; simpl in *.
    + rewrite Hfail. simpl. by rewrite <- app_assoc.
    + injection Hfail as ->. simpl. by rewrite <- app_assoc.
Qed.

(** A false value, the false objects such as [Decimal('0')] included, is
    saved as it is: the guard [if value and ...] fails before [is_encrypted]
    or the cipher is asked. *)
Lemma get_db_prep_save_false_value (value : pyval) (w : Field) :
  truthy value = false ->
  BaseEncryptedField_get_db_prep_save value w = (OK value, w).
Proof.
  intros Hfalse. unfold BaseEncryptedField_get_db_prep_save.
  by rewrite Hfalse.
Qed.

(** ** Assigning the key *)

Lemma stored_key_other_cipher (c : Cipher) value :
  name c <> "AES" -> stored_key c value = OK value.
Proof.
  intros Hne. unfold stored_key. apply String.eqb_neq in Hne. by rewrite Hne.
Qed.

Lemma with_key_same (c : Cipher) : with_key c (cipher_key c) = c.
Proof. by destruct c. Qed.

Lemma field_eta (w : Field) :
  {| cls := cls w; cipher := cipher w; calls := calls w |} = w.
Proof. by destruct w. Qed.

(** X4. On an AES cipher, assigning a text key is assigning its bytes in
    the charset of the cipher: both leave the field in the same state. *)
Theorem set_cipher_key_text_as_bytes (t : string) (raw : list byte) (w : Field) :
  name (cipher w) = "AES" ->
  py_encode (charset (cipher w)) t = OK raw ->
  Cipher_set_cipher_key (PStr t) w = Cipher_set_cipher_key (PBytes raw) w.
Proof.
  intros Hname Hraw. rewrite !Cipher_set_cipher_key_run.
  unfold stored_key. rewrite Hname. simpl. by rewrite Hraw.
Qed.

(** X5. On a cipher other than AES the assignment stores a text key as
    text, and from then on every [encrypt] and every [decrypt] on the field
    raises: the cipher library takes byte keys only. *)
Theorem text_key_fails_outside_AES (t : string) (w : Field) :
  name (cipher w) <> "AES" ->
  let w1 := (Cipher_set_cipher_key (PStr t) w).2 in
  cipher_key (cipher w1) = PStr t
  /\ (forall value, exists e, (Cipher_encrypt value w1).1 = Raise e)
  /\ (forall value, exists e, (Cipher_decrypt value w1).1 = Raise e).
Proof.
  intros Hne w1.
  assert (Hw1 : w1 = {| cls := cls w; cipher := with_key (cipher w) (PStr t);
                        calls := calls w |}).
  { unfold w1. rewrite Cipher_set_cipher_key_run.
    by rewrite stored_key_other_cipher. }
  rewrite Hw1. split; [done|]. split; intros value.
  - rewrite Cipher_encrypt_result. unfold spec_encrypt, block_encrypt. simpl.
    destruct (force_bytes _ _) as [raw|e]; simpl; by eexists.
  - rewrite Cipher_decrypt_result. unfold spec_decrypt, block_decrypt. simpl.
    destruct (dearmor _ _) as [raw|e]; simpl; by eexists.
Qed.

(** X6. A read whose context has no [cipher_key] assigns the current key
    again. When the assignment stores that key as it is (any cipher but
    AES, or an AES key [aes_pad_key] leaves alone) the read is [to_python]
    on the unchanged field. *)
Theorem from_db_value_without_override (value : pyval)
    (context : gmap string pyval) (w : Field) :
  context !! "cipher_key" = None ->
  stored_key (cipher w) (cipher_key (cipher w)) = OK (cipher_key (cipher w)) ->
  BaseEncryptedField_from_db_value value context w = to_python value w.
Proof.
  intros Hctx Hkey. rewrite from_db_value_run, Hctx. simpl.
  by rewrite Hkey, with_key_same, field_eta.
Qed.

(** ** Saving and reading back *)

Lemma get_db_prep_save_encrypts value w k raw :
  truthy value = true ->
  is_encrypted value = false ->
  cipher_key (cipher w) = PBytes k ->
  key_size (cipher_class (cipher w)) (length k) = true ->
  block_cipher_laws (cipher_class (cipher w)) k ->
  padding_laws (block_size (cipher_class (cipher w))) ->
  padding_nonempty (block_size (cipher_class (cipher w))) ->
  armor_laws ->
  force_bytes value (charset (cipher w)) = OK raw ->
  exists enc w1,
    BaseEncryptedField_get_db_prep_save value w =
      (OK (PStr (armor enc Cipher_versioned)), w1)
    /\ same_field w w1
    /\ enc <> []
    /\ spec_decrypt (cipher w) (PStr (armor enc Cipher_versioned)) = OK raw.
Proof.
  intros Htruthy Hplain Hkey Hk Hblock Hpad Hgrow Harmor Hraw.
  destruct (spec_round_trip (cipher w) k raw Hkey Hk Hblock Hpad Harmor)
    as (enc & Henc & Hdec).
  unfold BaseEncryptedField_get_db_prep_save. rewrite Htruthy, Hplain. simpl.
  destruct (Cipher_encrypt value w) as [r w1] eqn:Hrun.
  pose proof (Cipher_encrypt_result value w) as Hr.
  pose proof (Cipher_encrypt_frame value w) as Hframe.
  rewrite Hrun in Hr, Hframe. simpl in Hr, Hframe.
  unfold spec_encrypt in Hr. rewrite Hraw in Hr. simpl in Hr.
  unfold mbind, result_bind, rbind in Hr. rewrite Henc in Hr. subst r.
  exists enc, w1. repeat split; try done; try apply Hframe.
  destruct (block_encrypt_length _ _ _ _ Hkey Hblock Henc) as [Hlen _].
  intros ->. simpl in Hlen. symmetry in Hlen.
  apply length_zero_iff_nil in Hlen. by apply Hgrow in Hlen.
Qed.

Lemma to_python_untyped value w :
  typed_parser (cls w) = None ->
  to_python value w = BaseEncryptedField_to_python value w.
Proof. unfold to_python. run_M. by destruct (cls w). Qed.

Lemma BaseEncryptedField_to_python_decrypts envelope w :
  is_encrypted envelope = true ->
  (BaseEncryptedField_to_python envelope w).1 =
    (raw ← spec_decrypt (cipher w) envelope;
     text ← py_decode (charset (cipher w)) raw;
     OK (PStr text)).
Proof.
  intros He. unfold BaseEncryptedField_to_python. rewrite He.
  apply Cipher_decrypt_result.
Qed.

(** X7. Reading with the key of the context. On an untyped field, an
    envelope made under some key is read back to its text by a read whose
    context carries that key, whatever key the field held before. *)
Theorem from_db_value_with_context_key (w w_enc : Field)
    (context : gmap string pyval) (key : pyval) (k : list byte) (c : Codec)
    (text : string) (raw : list byte) :
  typed_parser (cls w) = None ->
  context !! "cipher_key" = Some key ->
  stored_key (cipher w) key = OK (PBytes k) ->
  cipher w_enc = with_key (cipher w) (PBytes k) ->
  key_size (cipher_class (cipher w)) (length k) = true ->
  block_cipher_laws (cipher_class (cipher w)) k ->
  padding_laws (block_size (cipher_class (cipher w))) ->
  armor_laws ->
  codecs (charset (cipher w)) = Some c ->
  codec_round_trip c ->
  encode c text = OK raw ->
  exists envelope w_enc',
    Cipher_encrypt (PStr text) w_enc = (OK envelope, w_enc')
    /\ (is_encrypted envelope = true ->
         (BaseEncryptedField_from_db_value envelope context w).1
           = OK (PStr text)).
Proof.
  intros Hcls Hctx Hstored Henc_key Hk Hblock Hpad Harmor Hcodec Hrt Hencode.
  set (c' := with_key (cipher w) (PBytes k)) in *.
  assert (Hraw : py_encode (charset c') text = OK raw).
  { unfold py_encode. simpl. by rewrite Hcodec. }
  destruct (spec_round_trip c' k raw eq_refl Hk Hblock Hpad Harmor)
    as (enc & Henc & Hdec).
  destruct (Cipher_encrypt (PStr text) w_enc) as [r w2] eqn:Hrun.
  pose proof (Cipher_encrypt_result (PStr text) w_enc) as Hr.
  rewrite Hrun, Henc_key in Hr. simpl in Hr.
  unfold spec_encrypt, force_bytes in Hr. rewrite Hraw in Hr. simpl in Hr.
  unfold mbind, result_bind, rbind in Hr.
  change (cipher_class c') with (cipher_class (cipher w)) in Henc.
  rewrite Henc in Hr. subst r.
  exists (PStr (armor enc Cipher_versioned)), w2. split; [done|].
  intros Hdetect. rewrite from_db_value_run, Hctx. simpl. rewrite Hstored.
  rewrite to_python_untyped by done.
  rewrite BaseEncryptedField_to_python_decrypts by done.
  simpl. fold c'. rewrite Hdec. simpl.
  by rewrite (py_encode_decode _ c text raw Hcodec Hrt Hraw).
Qed.

(** X8. An untyped field reads back the text it saved: a text that is not
    itself taken for an envelope, empty or not, comes back from a save
    followed by a read of what was stored. *)
Theorem text_save_then_read (w : Field) (k : list byte) (c : Codec)
    (text : string) (raw : list byte) :
  typed_parser (cls w) = None ->
  is_encrypted (PStr text) = false ->
  cipher_key (cipher w) = PBytes k ->
  key_size (cipher_class (cipher w)) (length k) = true ->
  block_cipher_laws (cipher_class (cipher w)) k ->
  padding_laws (block_size (cipher_class (cipher w))) ->
  padding_nonempty (block_size (cipher_class (cipher w))) ->
  armor_laws ->
  detects_envelopes ->
  codecs (charset (cipher w)) = Some c ->
  codec_round_trip c ->
  encode c text = OK raw ->
  (save_then_read (PStr text) w).1 = OK (PStr text).
Proof.
  intros Hcls Hplain Hkey Hk Hblock Hpad Hgrow Harmor Hdetect Hcodec Hrt Henc.
  assert (Hraw : py_encode (charset (cipher w)) text = OK raw).
  { unfold py_encode. by rewrite Hcodec. }
  unfold save_then_read, mbind, M_bind.
  destruct (truthy (PStr text)) eqn:Htruthy.
  - destruct (get_db_prep_save_encrypts (PStr text) w k raw Htruthy Hplain
                Hkey Hk Hblock Hpad Hgrow Harmor Hraw)
      as (enc & w1 & Hsave & (Hc1 & Hi1 & _) & Hne & Hdec).
    rewrite Hsave. destruct (Hdetect enc Hne) as [Hd _].
    rewrite to_python_untyped by congruence.
    rewrite BaseEncryptedField_to_python_decrypts by done.
    rewrite Hi1, Hdec. simpl.
    by rewrite (py_encode_decode _ c text raw Hcodec Hrt Hraw).
  - unfold BaseEncryptedField_get_db_prep_save. rewrite Htruthy. simpl.
    rewrite to_python_untyped by done.
    unfold BaseEncryptedField_to_python. by rewrite Hplain.
Qed.

(** [to_python] of a typed field on a value its guard lets through: the
    base method, then the parser of the class. *)
Lemma to_python_typed value w P :
  typed_parser (cls w) = Some P ->
  truthy value = true ->
  value ∉ empty_values ->
  to_python value w =
    (plain ← BaseEncryptedField_to_python value; lift (P plain)) w.
Proof.
  intros HP Htruthy Hne. unfold to_python. unfold mbind at 1, M_bind at 1.
  unfold get_class.
  destruct (cls w); simpl in HP; try done; injection HP as <-;
    unfold EncryptedIntegerField_to_python, EncryptedDecimalField_to_python,
      EncryptedDateField_to_python, parse_value;
    rewrite ?Htruthy; try done;
    by rewrite bool_decide_eq_false_2.
Qed.

(** X9. A typed field (integer, decimal, date, date-time) reads back the
    value it saved: for a value that is true, not an empty value and not
    taken for an envelope, whose bytes decode to a text the parser of the
    class maps back to the value, a save followed by a read of what was
    stored returns the value. *)
Theorem typed_save_then_read (w : Field) (k : list byte)
    (P : pyval -> result pyval) (value : pyval) (text : string)
    (raw : list byte) :
  typed_parser (cls w) = Some P ->
  truthy value = true ->
  value ∉ empty_values ->
  is_encrypted value = false ->
  cipher_key (cipher w) = PBytes k ->
  key_size (cipher_class (cipher w)) (length k) = true ->
  block_cipher_laws (cipher_class (cipher w)) k ->
  padding_laws (block_size (cipher_class (cipher w))) ->
  padding_nonempty (block_size (cipher_class (cipher w))) ->
  armor_laws ->
  detects_envelopes ->
  force_bytes value (charset (cipher w)) = OK raw ->
  py_decode (charset (cipher w)) raw = OK text ->
  P (PStr text) = OK value ->
  (save_then_read value w).1 = OK value.
Proof.
  intros HP Htruthy Hne Hplain Hkey Hk Hblock Hpad Hgrow Harmor Hdetect
    Hraw Htext Hparse.
  unfold save_then_read, mbind, M_bind.
  destruct (get_db_prep_save_encrypts value w k raw Htruthy Hplain
              Hkey Hk Hblock Hpad Hgrow Harmor Hraw)
    as (enc & w1 & Hsave & (Hc1 & Hi1 & _) & Hnil & Hdec).
  rewrite Hsave. destruct (Hdetect enc Hnil) as [Hd Hnonempty].
  rewrite (to_python_typed _ w1 P); [|congruence| |].
  - unfold mbind, M_bind.
    pose proof (BaseEncryptedField_to_python_decrypts _ w1 Hd) as Hr.
    rewrite Hi1, Hdec in Hr. simpl in Hr. rewrite Htext in Hr. simpl in Hr.
    destruct (BaseEncryptedField_to_python _ w1) as [r w2]. simpl in Hr.
    subst r. unfold lift. simpl. done.
  - simpl. apply negb_true_iff, String.eqb_neq. done.
  - unfold empty_values. intros Hin.
    apply elem_of_cons in Hin as [[=]|Hin].
    apply list_elem_of_singleton in Hin. injection Hin as Hin. done.
Qed.

(** X10. A typed field parses a legacy row: a stored value that is true,
    not an empty value and not an envelope goes to the parser of the class
    as it is, without a call to the cipher; what the parser raises is
    raised. *)
Theorem typed_to_python_legacy (w : Field) (P : pyval -> result pyval)
    (value : pyval) :
  typed_parser (cls w) = Some P ->
  truthy value = true ->
  value ∉ empty_values ->
  is_encrypted value = false ->
  to_python value w = (P value, w).
Proof.
  intros HP Htruthy Hne Hplain.
  rewrite (to_python_typed _ w P) by done.
  unfold mbind, M_bind, BaseEncryptedField_to_python. by rewrite Hplain.
Qed.

(** X11. Empty stored values never reach the cipher or a parser: the
    integer and decimal fields return a false value as it is, the date and
    date-time fields return [None] for [None] and for the empty text. *)
Theorem typed_to_python_empty (w : Field) (value : pyval) :
  (cls w = EncryptedIntegerField \/ cls w = EncryptedDecimalField ->
   truthy value = false -> to_python value w = (OK value, w))
  /\ (cls w = EncryptedDateField \/ cls w = EncryptedDateTimeField ->
      value ∈ empty_values -> to_python value w = (OK PNone, w)).
Proof.
  split.
  - intros Hc Hfalse. unfold to_python. run_M.
    destruct Hc as [-> | ->];
      unfold EncryptedIntegerField_to_python, EncryptedDecimalField_to_python;
      by rewrite Hfalse.
  - intros Hc Hin. unfold to_python. run_M.
    destruct Hc as [-> | ->]; unfold EncryptedDateField_to_python;
      by rewrite bool_decide_eq_true_2.
Qed.

(** X12. Saving is idempotent: what a successful save stored, a second
    save stores again unchanged and without a call to the cipher. *)
Theorem get_db_prep_save_twice (value stored : pyval) (w w' : Field)
    (k : list byte) :
  cipher_key (cipher w) = PBytes k ->
  block_cipher_laws (cipher_class (cipher w)) k ->
  padding_nonempty (block_size (cipher_class (cipher w))) ->
  detects_envelopes ->
  BaseEncryptedField_get_db_prep_save value w = (OK stored, w') ->
  BaseEncryptedField_get_db_prep_save stored w' = (OK stored, w').
Proof.
  intros Hkey Hblock Hgrow Hdetect.
  unfold BaseEncryptedField_get_db_prep_save at 1.
  destruct (truthy value && negb (is_encrypted value)) eqn:Hcond.
  - intros Hrun.
    destruct (encrypt_envelope_size_aux value stored w w' k Hkey Hblock Hrun)
      as (raw & enc & -> & Hlen).
    assert (Hnil : enc <> []).
    { intros ->. simpl in Hlen. symmetry in Hlen.
      apply length_zero_iff_nil in Hlen. by apply Hgrow in Hlen. }
    destruct (Hdetect enc Hnil) as [Hd _].
    unfold BaseEncryptedField_get_db_prep_save. by rewrite Hd, andb_false_r.
  - intros [= <- <-]. unfold BaseEncryptedField_get_db_prep_save.
    by rewrite Hcond.
Qed.

(** ** More on the lookups *)

(** X13. What [as_postgresql] returns for an AES or Blowfish field: the
    left side wrapped in [dearmor], [decrypt] with the SQL name of the
    cipher and [convert_from], then the cast of the class and the operator
    applied to the right side; the parameters are those of the left side,
    the key, and those of the right side, in this order. The field is left
    as it was. *)
Theorem as_postgresql_contract (lookup_name lhs rhs op op_rhs : string)
    (lhs_params rhs_params : list pyval) (operators : gmap string string)
    (w : Field) :
  name (cipher w) = "AES" \/ name (cipher w) = "Blowfish" ->
  operators !! lookup_name = Some op ->
  py_format op [rhs] = OK op_rhs ->
  EncryptedLookup_as_postgresql lookup_name (OK (lhs, lhs_params))
    (OK (rhs, rhs_params)) operators w =
    (OK ("convert_from(decrypt(dearmor(" +:+ lhs +:+ "), %s, '"
           +:+ (if String.eqb (name (cipher w)) "AES" then "aes" else "bf")
           +:+ "'), 'utf-8')" +:+ field_cast (cls w) +:+ " " +:+ op_rhs,
         lhs_params ++ [cipher_key (cipher w)] ++ rhs_params), w).
Proof.
  intros Hname Hop Hfmt.
  unfold EncryptedLookup_as_postgresql. run_M.
  rewrite Hop. simpl. rewrite Hfmt. simpl.
  destruct Hname as [-> | ->]; simpl; by rewrite append_empty.
Qed.

(** X14. The text [as_postgresql] returns does not depend on the values
    bound to it: two fields of the same class and cipher name, whatever
    their keys and charsets, and two lookups that differ only in the
    parameters of their sides get the same text or the same error; and no
    call changes the field. *)
Theorem as_postgresql_text_is_static (lookup_name lhs rhs : string)
    (lhs_params lhs_params' rhs_params rhs_params' : list pyval)
    (operators : gmap string string) (w w' : Field) :
  cls w' = cls w ->
  name (cipher w') = name (cipher w) ->
  rmap fst (EncryptedLookup_as_postgresql lookup_name (OK (lhs, lhs_params))
              (OK (rhs, rhs_params)) operators w).1 =
  rmap fst (EncryptedLookup_as_postgresql lookup_name (OK (lhs, lhs_params'))
              (OK (rhs, rhs_params')) operators w').1
  /\ (EncryptedLookup_as_postgresql lookup_name (OK (lhs, lhs_params))
        (OK (rhs, rhs_params)) operators w).2 = w.
Proof.
  intros Hcls Hname. unfold EncryptedLookup_as_postgresql. run_M.
  rewrite Hcls, Hname.
  destruct (operators !! lookup_name) as [op|]; simpl; [|done].
  destruct (py_format op [rhs]) as [op_rhs|]; simpl; [|done].
  destruct (cipher_names !! name (cipher w)) as [cn|]; simpl; done.
Qed.

(** X15. A cipher enabled through [VALID_CIPHERS] beyond AES and Blowfish
    is accepted by the constructor, and then every lookup on the
    decrypting backend raises [KeyError] on its name. *)
Theorem as_postgresql_unmapped_cipher (cipher_name : string) (key : pyval)
    (charset lookup_name lhs rhs op op_rhs : string) (c : Cipher)
    (lhs_params rhs_params : list pyval) (operators : gmap string string)
    (w : Field) :
  Cipher_init cipher_name key charset = OK c ->
  cipher_name <> "AES" ->
  cipher_name <> "Blowfish" ->
  cipher w = c ->
  operators !! lookup_name = Some op ->
  py_format op [rhs] = OK op_rhs ->
  EncryptedLookup_as_postgresql lookup_name (OK (lhs, lhs_params))
    (OK (rhs, rhs_params)) operators w = (Raise (KeyError cipher_name), w).
Proof.
  intros Hinit Haes Hbf Hw Hop Hfmt.
  assert (Hname : name c = cipher_name).
  { unfold Cipher_init in Hinit. case_bool_decide; [|done].
    destruct (Cryptodome cipher_name); simpl in Hinit; [|done].
    by injection Hinit as <-. }
  assert (Hnone : cipher_names !! name (cipher w) = None).
  { rewrite Hw, Hname.
    destruct (cipher_names !! cipher_name) as [sql|] eqn:Hl; [|done].
    apply cipher_names_spec in Hl as [[? _]|[? _]]; done. }
  unfold EncryptedLookup_as_postgresql. run_M.
  rewrite Hop. simpl. rewrite Hfmt. simpl. rewrite Hnone. simpl.
  by rewrite Hw, Hname.
Qed.

(** ** The state of the field *)

(** X16. Of the methods of a field only the assignment of the key changes
    the cipher object: [encrypt], [decrypt], [to_python] and
    [get_db_prep_save] leave the class and the cipher object as they were,
    raising or not, and only extend the record of library calls. *)
Theorem field_methods_keep_cipher (value : pyval) (w : Field) :
  same_field w (Cipher_encrypt value w).2
  /\ same_field w (Cipher_decrypt value w).2
  /\ same_field w (to_python value w).2
  /\ same_field w (BaseEncryptedField_get_db_prep_save value w).2.
Proof.
  split; [apply Cipher_encrypt_frame|].
  split; [apply Cipher_decrypt_frame|].
  split; [apply to_python_frame | apply get_db_prep_save_frame].
Qed.

(** X17. A field built without a key holds the empty key: when the cipher
    module refuses a key of length zero, every save of a value that is true,
    not an envelope and encodable raises [ValueError] after the context was
    asked for, and nothing is stored. *)
Theorem keyless_field_cannot_save (c : FieldClass) (charset : option string)
    (f : Field) (value : pyval) (raw : list byte) :
  BaseEncryptedField_init c None charset = OK f ->
  key_size (cipher_class (cipher f)) 0 = false ->
  truthy value = true ->
  is_encrypted value = false ->
  force_bytes value (default "utf-8" charset) = OK raw ->
  cipher_key (cipher f) = PBytes []
  /\ (BaseEncryptedField_get_db_prep_save value f).1 = Raise ValueError.
Proof.
  intros Hinit Hsize Htruthy Hplain Hraw.
  unfold BaseEncryptedField_init, Cipher_init in Hinit.
  unfold mbind, result_bind, rbind in Hinit.
  case_bool_decide; [|done].
  destruct (Cryptodome _) as [m|]; simpl in Hinit; [|done].
  injection Hinit as <-. simpl in *. split; [done|].
  unfold BaseEncryptedField_get_db_prep_save. rewrite Htruthy, Hplain. simpl.
  rewrite Cipher_encrypt_result. unfold spec_encrypt. simpl.
  rewrite Hraw. simpl. unfold block_encrypt, Cipher_new. simpl.
  by rewrite Hsize.
Qed.

(** ** The save hook of the date fields *)

(** X18. [pre_save] of the date fields returns what the model instance
    holds afterwards under the attribute of the field, and touches no other
    attribute. With [auto_now], or with [auto_now_add] on an insert, that is
    the reading of the clock (the date, or the date and time in the
    date-time class) whatever the instance held; otherwise the instance is
    left as it was. *)
Theorem pre_save_sets_attribute (c : FieldClass) (auto_now auto_now_add : bool)
    (attname : string) (today now value : pyval)
    (model_instance after : gmap string pyval) (add : bool) :
  EncryptedDateField_pre_save c auto_now auto_now_add attname today now
    model_instance add = OK (value, after) ->
  after !! attname = Some value
  /\ (forall other, other <> attname ->
        after !! other = model_instance !! other)
  /\ (if auto_now || (auto_now_add && add)
      then value = (if bool_decide (c = EncryptedDateTimeField)
                    then now else today)
      else after = model_instance).
Proof.
  unfold EncryptedDateField_pre_save.
  destruct (auto_now || auto_now_add && add).
  - intros [= <- <-]. split; [apply lookup_insert_eq|].
    split; [intros other Hne; by apply lookup_insert_ne|].
    unfold get_auto_now_value. by destruct c.
  - destruct (model_instance !! attname) as [v|] eqn:Hget; simpl; [|done].
    intros [= <- <-]. done.
Qed.

(** ** Construction and description *)

(** X19. The constructor of [Cipher] checks the name and nothing else: a
    name outside the enabled ciphers is an [AssertionError] whether or not
    the library has such a module, and a cipher that was built carries an
    enabled name, the module the library has under it, and the key and the
    charset exactly as given. *)
Theorem Cipher_init_checks_name (cipher_name : string) (key : pyval)
    (charset : string) :
  (cipher_name ∉ Cipher_valid_ciphers ->
   Cipher_init cipher_name key charset = Raise AssertionError)
  /\ (forall c, Cipher_init cipher_name key charset = OK c ->
        cipher_name ∈ Cipher_valid_ciphers
        /\ Cryptodome cipher_name = Some (cipher_class c)
        /\ c = {| name := cipher_name; cipher_key := key; charset := charset;
                  cipher_class := cipher_class c |})
  /\ (VALID_CIPHERS settings = None ->
      forall c, Cipher_init cipher_name key charset = OK c ->
        cipher_name = "AES" \/ cipher_name = "Blowfish").
Proof.
  unfold Cipher_init. split; [|split].
  - intros Hout. by rewrite bool_decide_eq_false_2.
  - intros c. case_bool_decide as Hin; [|done].
    destruct (Cryptodome cipher_name) as [m|]; simpl; [|done].
    by intros [= <-].
  - intros Hdefault c. case_bool_decide as Hin; [|done]. intros _.
    unfold Cipher_valid_ciphers in Hin. rewrite Hdefault in Hin. simpl in Hin.
    apply elem_of_cons in Hin as [->|Hin]; [by left|].
    apply list_elem_of_singleton in Hin as ->. by right.
Qed.

(** X20. [deconstruct] reports the charset of the cipher and never the
    key: among the keyword arguments [charset] is the charset the cipher
    has now, every other keyword is as [models.Field.deconstruct] gave it
    (so there is no [key] unless Django put one), and the field is left as
    it was. *)
Theorem deconstruct_reports_charset_only (name path : string)
    (args : list pyval) (kwargs : gmap string pyval) (w : Field) :
  exists kwargs',
    BaseEncryptedField_deconstruct (name, path, args, kwargs) w =
      (OK (name, path, args, kwargs'), w)
    /\ kwargs' !! "charset" = Some (PStr (charset (cipher w)))
    /\ (forall keyword, keyword <> "charset" ->
          kwargs' !! keyword = kwargs !! keyword)
    /\ kwargs' !! "key" = kwargs !! "key".
Proof.
  eexists. split; [reflexivity|].
  split; [apply lookup_insert_eq|].
  split; [intros keyword Hne; by apply lookup_insert_ne|].
  by apply lookup_insert_ne.
Qed.

End Fields.

(** * The sample collaborators meet the laws *)
Module SampleFacts.
Import Sample.

Lemma latin_1_round_trip : codec_round_trip latin_1.
Proof.
  intros s b [= <-]. simpl. f_equal.
  rewrite map_map.
  rewrite (map_ext _ id), map_id by (intros a; apply ascii_of_byte_of_ascii).
  apply string_of_list_ascii_of_string.
Qed.

Lemma utf8_decode_char c rest :
  utf8_decode (utf8_encode_char c ++ rest) =
    rmap (String c) (utf8_decode rest).
Proof.
  destruct c as [[] [] [] [] [] [] [] []]; reflexivity.
Qed.

Lemma utf8_decode_encode s : utf8_decode (utf8_encode s) = OK s.
Proof.
  induction s as [|c s IH]; [done|].
  simpl utf8_encode. by rewrite utf8_decode_char, IH.
Qed.

Lemma utf_8_round_trip : codec_round_trip utf_8.
Proof. intros s b [= <-]. apply utf8_decode_encode. Qed.

Lemma length_mjoin_replicate (k : list byte) n :
  length (mjoin (replicate n k)) = n * length k.
Proof.
  induction n as [|n IH]; [done|].
  simpl. rewrite length_app, IH. lia.
Qed.

Lemma length_key_stream k n : 0 < length k -> length (key_stream k n) = n.
Proof.
  intros Hk. unfold key_stream.
  rewrite length_take, length_mjoin_replicate. nia.
Qed.

Lemma toy_block_laws (m : CipherModule) k :
  encrypt_block m = toy_encrypt_block ->
  decrypt_block m = toy_decrypt_block ->
  0 < length k ->
  block_cipher_laws m k.
Proof.
  intros He Hd Hk b Hb. rewrite He, Hd.
  assert (Hl : length (toy_encrypt_block k b) = length b).
  { unfold toy_encrypt_block.
    rewrite length_reverse, length_bytes_xor, length_key_stream by done.
    lia. }
  split; [congruence|].
  unfold toy_decrypt_block. rewrite Hl. unfold toy_encrypt_block.
  rewrite reverse_involutive. apply bytes_xor_involutive.
  rewrite length_key_stream by done. lia.
Qed.

Lemma to_N_byte_of_nat n : n < 256 -> N.to_nat (Byte.to_N (byte_of_nat n)) = n.
Proof.
  intros Hn. unfold byte_of_nat.
  destruct (Byte.of_N (N.of_nat n)) as [c|] eqn:Hc.
  - apply Byte.to_of_N in Hc. simpl. lia.
  - apply Byte.of_N_None_iff in Hc. lia.
Qed.

Lemma sample_padding_laws bs :
  0 < bs < 256 -> padding_laws (ENV := env) bs.
Proof.
  intros Hbs b. simpl. unfold pad, unpad.
  set (n := bs - length b mod bs).
  pose proof (Nat.mod_upper_bound (length b) bs) as Hr.
  pose proof (Nat.div_mod_eq (length b) bs) as Hq.
  assert (Hn : 1 <= n <= bs) by (subst n; lia).
  assert (Hlen : length (b ++ replicate n (byte_of_nat n)) =
                 (length b / bs + 1) * bs).
  { rewrite length_app, length_replicate. subst n. nia. }
  split.
  - rewrite Hlen. apply Nat.Div0.mod_mul.
  - assert (Hlast : last (b ++ replicate n (byte_of_nat n)) =
                    Some (byte_of_nat n)).
    { destruct n as [|n']; [lia|].
      by rewrite replicate_S_end, app_assoc, last_snoc. }
    rewrite Hlast, to_N_byte_of_nat by lia.
    rewrite Hlen, Nat.Div0.mod_mul, Nat.eqb_refl.
    rewrite (proj2 (Nat.leb_le 1 n)), (proj2 (Nat.leb_le n bs)) by lia.
    cbv [andb]. f_equal.
    rewrite <- Hlen, length_app, length_replicate.
    replace (length b + n - n) with (length b) by lia.
    by rewrite take_app_length.
Qed.

Lemma hex_byte_round_trip x :
  hex_value (hex_digit (Byte.to_N x / 16)) = Some (Byte.to_N x / 16)%N
  /\ hex_value (hex_digit (Byte.to_N x mod 16)) = Some (Byte.to_N x mod 16)%N
  /\ Byte.of_N (Byte.to_N x / 16 * 16 + Byte.to_N x mod 16) = Some x
  /\ Ascii.eqb (hex_digit (Byte.to_N x / 16)) version_marker = false.
Proof. destruct x; repeat split; reflexivity. Qed.

Lemma hex_decode_encode b : hex_decode (hex_encode b) = Some b.
Proof.
  induction b as [|x b IH]; [done|].
  destruct (hex_byte_round_trip x) as (Hh & Hl & Hx & _).
  simpl. rewrite Hh. simpl. rewrite Hl. simpl. rewrite Hx. simpl.
  by rewrite IH.
Qed.

Lemma dearmor_unversioned c rest verify :
  Ascii.eqb c version_marker = false ->
  dearmor (PStr (String c rest)) verify =
    of_option (hex_decode (String c rest)) (BaseError "armor").
Proof. intros Hc. unfold dearmor. by rewrite Hc. Qed.

Lemma sample_armor_laws : armor_laws (ENV := env).
Proof.
  intros b versioned verify.
  change (Sample.dearmor (PStr (Sample.armor b versioned)) verify = OK b).
  unfold armor. destruct versioned.
  - unfold dearmor. rewrite Ascii.eqb_refl. by rewrite hex_decode_encode.
  - destruct b as [|x b]; [done|].
    destruct (hex_byte_round_trip x) as (_ & _ & _ & Hv).
    pose proof (hex_decode_encode (x :: b)) as Hd.
    change (hex_encode (x :: b)) with
      (String (hex_digit (Byte.to_N x / 16))
         (String (hex_digit (Byte.to_N x mod 16)) (hex_encode b))) in *.
    by rewrite dearmor_unversioned, Hd.
Qed.

Lemma sample_detects_envelopes b v :
  b <> [] -> is_encrypted (PStr (armor b v)) = true.
Proof.
  intros Hb. pose proof (sample_armor_laws b v true) as Hd.
  change (Sample.dearmor (PStr (Sample.armor b v)) true = OK b) in Hd.
  destruct (armor b v) as [|c rest] eqn:Ha.
  - destruct b; [done|]. by destruct v.
  - unfold is_encrypted. by rewrite Hd.
Qed.

Lemma sample_padding_nonempty bs : 0 < bs -> padding_nonempty (ENV := env) bs.
Proof.
  intros Hbs b. change (Sample.pad b bs <> []). unfold pad.
  pose proof (Nat.mod_upper_bound (length b) bs).
  destruct (bs - length b mod bs) as [|n] eqn:Hn; [lia|].
  simpl. by destruct b.
Qed.

Lemma hex_encode_nonempty x b : hex_encode (x :: b) <> "".
Proof. done. Qed.

Lemma sample_detects : detects_envelopes (ENV := env).
Proof.
  intros b Hb. split.
  - by apply sample_detects_envelopes.
  - destruct b as [|x b]; [done|]. apply hex_encode_nonempty.
Qed.

End SampleFacts.

(** * The statements on the sample field *)

(** The scenario of the specification: ["hello world"], a 32-byte AES key,
    UTF-8, versioning off. *)
Lemma decrypt_encrypt_round_trip_witness :
  exists envelope w1 w2,
    Cipher_encrypt (ENV := Sample.env) (PStr "hello world") Sample.text_field
      = (OK envelope, w1)
    /\ Cipher_decrypt (ENV := Sample.env) envelope w1
      = (OK (PStr "hello world"), w2).
Proof.
  apply (decrypt_encrypt_round_trip (ENV := Sample.env) Sample.text_field
           Sample.key32 Sample.utf_8 "hello world"
           (Sample.utf8_encode "hello world")).
  - reflexivity.
  - reflexivity.
  - apply SampleFacts.toy_block_laws; [reflexivity | reflexivity | simpl; lia].
  - apply SampleFacts.sample_padding_laws. simpl. lia.
  - apply SampleFacts.sample_armor_laws.
  - reflexivity.
  - apply SampleFacts.utf_8_round_trip.
  - reflexivity.
Defined.

(** C2 as worded fails: [decrypt] does not return the unpadded bytes; on
    the envelope of ["hello world"] it returns the text, which is not the
    byte string [unpad] gave. *)
Lemma Cipher_decrypt_is_not_unpad :
  (Cipher_decrypt (ENV := Sample.env) Sample.hello_envelope Sample.text_field).1
    = OK (PStr "hello world")
  /\ rmap PBytes (spec_decrypt (ENV := Sample.env) Sample.cipher_AES
                    Sample.hello_envelope)
    = OK (PBytes (Sample.bytes_of_text "hello world"))
  /\ (Cipher_decrypt (ENV := Sample.env) Sample.hello_envelope
        Sample.text_field).1
    <> rmap PBytes (spec_decrypt (ENV := Sample.env) Sample.cipher_AES
                      Sample.hello_envelope).
Proof.
  assert (H1 : (Cipher_decrypt (ENV := Sample.env) Sample.hello_envelope
                  Sample.text_field).1 = OK (PStr "hello world"))
    by (vm_compute; reflexivity).
  assert (H2 : rmap PBytes (spec_decrypt (ENV := Sample.env) Sample.cipher_AES
                              Sample.hello_envelope)
               = OK (PBytes (Sample.bytes_of_text "hello world")))
    by (vm_compute; reflexivity).
  split; [exact H1|]. split; [exact H2|].
  rewrite H1, H2. discriminate.
Qed.

Lemma to_python_pass_through_witness :
  BaseEncryptedField_to_python (ENV := Sample.env) (PStr "legacy plain text")
    Sample.text_field
  = (OK (PStr "legacy plain text"), Sample.text_field).
Proof.
  apply (to_python_pass_through (ENV := Sample.env)). reflexivity.
Defined.

Lemma get_db_prep_save_keeps_envelope_witness :
  BaseEncryptedField_get_db_prep_save (ENV := Sample.env) Sample.hello_envelope
    Sample.text_field = (OK Sample.hello_envelope, Sample.text_field)
  /\ (once ← BaseEncryptedField_get_db_prep_save (ENV := Sample.env)
               Sample.hello_envelope;
      BaseEncryptedField_get_db_prep_save (ENV := Sample.env) once)
       Sample.text_field
     = (OK Sample.hello_envelope, Sample.text_field).
Proof.
  apply (get_db_prep_save_keeps_envelope (ENV := Sample.env)). reflexivity.
Defined.

Lemma as_sql_rejects_other_lookups_witness :
  EncryptedLookup_as_sql (ENV := Sample.env) "gt" (OK ("t.c", []))
    (OK ("%s", [PStr "19.99"])) Sample.operators Sample.text_field
  = (Raise (NotImplementedError "Vendor 'sql' does not support lookup 'gt'"),
     Sample.text_field).
Proof.
  apply (as_sql_rejects_other_lookups (ENV := Sample.env) "gt"). discriminate.
Defined.

Lemma encrypt_deterministic_witness :
  exists e1 e2 w1 w2,
    Cipher_encrypt (ENV := Sample.env) (PStr "alice") Sample.text_field
      = (OK e1, w1)
    /\ Cipher_encrypt (ENV := Sample.env) (PStr "bob") w1 = (OK e2, w2)
    /\ (e1 = e2 <-> PStr "alice" = PStr "bob").
Proof.
  destruct (Cipher_encrypt (ENV := Sample.env) (PStr "alice") Sample.text_field)
    as [r1 w1] eqn:H1.
  destruct (Cipher_encrypt (ENV := Sample.env) (PStr "bob") w1)
    as [r2 w2] eqn:H2.
  assert (Hw1 : cipher w1 = Sample.cipher_AES).
  { pose proof (Cipher_encrypt_frame (ENV := Sample.env) (PStr "alice")
                  Sample.text_field) as (_ & Hc & _).
    by rewrite H1 in Hc. }
  assert (Hr1 : exists e1, r1 = OK e1).
  { pose proof (Cipher_encrypt_result (ENV := Sample.env) (PStr "alice")
                  Sample.text_field) as Hr.
    rewrite H1 in Hr. simpl in Hr. rewrite Hr. by eexists. }
  assert (Hr2 : exists e2, r2 = OK e2).
  { pose proof (Cipher_encrypt_result (ENV := Sample.env) (PStr "bob") w1)
      as Hr.
    rewrite H2, Hw1 in Hr. simpl in Hr. rewrite Hr. by eexists. }
  destruct Hr1 as [e1 ->]. destruct Hr2 as [e2 ->].
  exists e1, e2, w1, w2. split; [done|]. split; [done|].
  refine (proj1 (proj2 (encrypt_deterministic (ENV := Sample.env)
                   Sample.text_field w1 w1 w2 Sample.key32 Sample.utf_8
                   (PStr "alice") (PStr "bob") e1 e2
                   Hw1 eq_refl eq_refl _ _ _ eq_refl _ H1 H2))
            "alice" "bob" eq_refl eq_refl).
  - apply SampleFacts.toy_block_laws; [reflexivity | reflexivity | simpl; lia].
  - apply SampleFacts.sample_padding_laws. simpl. lia.
  - apply SampleFacts.sample_armor_laws.
  - apply SampleFacts.utf_8_round_trip.
Defined.

Lemma from_db_value_assigns_key_witness :
  cipher
    (BaseEncryptedField_from_db_value (ENV := Sample.env)
       (PStr "legacy plain text")
       {[ "cipher_key" := PBytes (Sample.bytes_of_text "tenant key") ]}
       Sample.text_field).2
  = with_key Sample.cipher_AES
      (PBytes (Sample.bytes_of_text "tenant key" ++ replicate 6 x00)).
Proof.
  refine (proj1 (proj2
    (from_db_value_assigns_key (ENV := Sample.env) (PStr "legacy plain text")
       {[ "cipher_key" := PBytes (Sample.bytes_of_text "tenant key") ]}
       Sample.text_field
       (PBytes (Sample.bytes_of_text "tenant key" ++ replicate 6 x00)) _))).
  vm_compute. reflexivity.
Defined.

(** C5 on the code: an [exact] lookup with one operand on the generic
    backend. [as_sql] asks the field for [encrypt], which only the
    [Cipher] object of the field has, and raises [AttributeError]; no
    operand is encrypted and no comparison is emitted. *)
Theorem as_sql_exact_raises_AttributeError :
  EncryptedLookup_as_sql (ENV := Sample.env) "exact" (OK ("t.c", []))
    (OK ("%s", [PStr "alice"])) Sample.operators Sample.text_field
  = (Raise (AttributeError "encrypt"), Sample.text_field).
Proof. by apply (as_sql_exact_attribute_error (ENV := Sample.env)). Qed.

(** C6 on the code: a [Cipher] built for AES with the 6-byte key
    [b"secret"] holds those 6 bytes, while assigning the same key to
    [cipher_key] stores 16 bytes. A save on the fresh field fails in the
    cipher library on the key length; after one read, which assigns the
    key again, the same save succeeds. *)
Theorem Cipher_init_leaves_key_unpadded :
  let key := PBytes (Sample.bytes_of_text "secret") in
  exists c,
    Cipher_init (ENV := Sample.env) "AES" key "utf-8" = OK c
    /\ cipher_key c = key
    /\ stored_key (ENV := Sample.env) c key
       = OK (PBytes (Sample.bytes_of_text "secret" ++ replicate 10 x00))
    /\ (BaseEncryptedField_get_db_prep_save (ENV := Sample.env)
          (PStr "hello world")
          {| cls := EncryptedTextField; cipher := c; calls := [] |}).1
       = Raise ValueError
    /\ ((BaseEncryptedField_from_db_value (ENV := Sample.env)
           (PStr "legacy plain text") ∅;;
         BaseEncryptedField_get_db_prep_save (ENV := Sample.env)
           (PStr "hello world"))
          {| cls := EncryptedTextField; cipher := c; calls := [] |}).1
       = OK (PStr "0505050505646c726f77540a1e0f001b").
Proof.
  intros key.
  exists {| name := "AES"; cipher_key := key; charset := "utf-8";
            cipher_class := Sample.AES |}.
  repeat split; vm_compute; reflexivity.
Qed.

(** Every [field_cast] but the one of the date-time field is empty or a
    [::type] cast. *)
Lemma field_cast_forms c :
  c <> EncryptedDateTimeField ->
  field_cast c = "" \/ exists type, field_cast c = "::" +:+ type.
Proof.
  destruct c; intros Hc; try done; try (by left);
    right; by eexists.
Qed.

(** C8 on the code: a [gt] lookup on a date-time field. The suffix put
    after the decrypted column is the bare type name, with no cast
    operator; the date field next to it gets [::date]. *)
Theorem as_postgresql_datetime_has_no_cast :
  let datetime_field :=
    {| cls := EncryptedDateTimeField; cipher := Sample.cipher_AES;
       calls := [] |} in
  let date_field :=
    {| cls := EncryptedDateField; cipher := Sample.cipher_AES; calls := [] |} in
  EncryptedLookup_as_postgresql "gt" (OK ("t.c", []))
    (OK ("%s", [PStr "2024-01-15 10:00"])) Sample.operators datetime_field
  = (OK ("convert_from(decrypt(dearmor(t.c), %s, 'aes'), 'utf-8')timestamp with time zone > %s",
         [PBytes Sample.key32; PStr "2024-01-15 10:00"]),
     datetime_field)
  /\ EncryptedLookup_as_postgresql "gt" (OK ("t.c", []))
       (OK ("%s", [PStr "2024-01-15"])) Sample.operators date_field
     = (OK ("convert_from(decrypt(dearmor(t.c), %s, 'aes'), 'utf-8')::date > %s",
            [PBytes Sample.key32; PStr "2024-01-15"]),
        date_field).
Proof. split; vm_compute; reflexivity. Qed.

(** * Further statements on the sample fields *)

Lemma encrypt_envelope_size_witness :
  exists raw enc,
    force_bytes (ENV := Sample.env) (PStr "hello world") "utf-8" = OK raw
    /\ Sample.hello_envelope = PStr (Sample.armor enc false)
    /\ length enc = length (Sample.pad raw 16)
    /\ length enc mod 16 = 0.
Proof.
  apply (encrypt_envelope_size (ENV := Sample.env) (PStr "hello world")
           Sample.hello_envelope Sample.text_field
           (Cipher_encrypt (ENV := Sample.env) (PStr "hello world")
              Sample.text_field).2
           Sample.key32).
  - reflexivity.
  - apply SampleFacts.toy_block_laws; [reflexivity | reflexivity | simpl; lia].
  - vm_compute. reflexivity.
Defined.

Lemma set_cipher_key_text_as_bytes_witness :
  Cipher_set_cipher_key (ENV := Sample.env) (PStr "secret") Sample.text_field
  = Cipher_set_cipher_key (ENV := Sample.env)
      (PBytes (Sample.bytes_of_text "secret")) Sample.text_field.
Proof.
  apply (set_cipher_key_text_as_bytes (ENV := Sample.env)); reflexivity.
Defined.

Lemma text_key_fails_outside_AES_witness :
  let w1 := (Cipher_set_cipher_key (ENV := Sample.env) (PStr "tenant-b")
               Sample.char_field).2 in
  cipher_key (cipher w1) = PStr "tenant-b"
  /\ (forall value, exists e,
        (Cipher_encrypt (ENV := Sample.env) value w1).1 = Raise e)
  /\ (forall value, exists e,
        (Cipher_decrypt (ENV := Sample.env) value w1).1 = Raise e).
Proof.
  apply (text_key_fails_outside_AES (ENV := Sample.env) "tenant-b"
           Sample.char_field).
  discriminate.
Defined.

Lemma from_db_value_without_override_witness :
  BaseEncryptedField_from_db_value (ENV := Sample.env) Sample.hello_envelope ∅
    Sample.text_field
  = to_python (ENV := Sample.env) Sample.hello_envelope Sample.text_field.
Proof.
  apply (from_db_value_without_override (ENV := Sample.env)); reflexivity.
Defined.

Lemma from_db_value_with_context_key_witness :
  exists envelope w',
    Cipher_encrypt (ENV := Sample.env) (PStr "hello world")
      {| cls := EncryptedEmailField;
         cipher := with_key Sample.cipher_AES (PBytes Sample.key16);
         calls := [] |} = (OK envelope, w')
    /\ (Sample.is_encrypted envelope = true ->
        (BaseEncryptedField_from_db_value (ENV := Sample.env) envelope
           {[ "cipher_key" := PBytes Sample.key16 ]} Sample.text_field).1
        = OK (PStr "hello world")).
Proof.
  apply (from_db_value_with_context_key (ENV := Sample.env) Sample.text_field
           _ {[ "cipher_key" := PBytes Sample.key16 ]} (PBytes Sample.key16)
           Sample.key16 Sample.utf_8 "hello world"
           (Sample.utf8_encode "hello world")).
  - reflexivity.
  - reflexivity.
  - reflexivity.
  - reflexivity.
  - reflexivity.
  - apply SampleFacts.toy_block_laws; [reflexivity | reflexivity | simpl; lia].
  - apply SampleFacts.sample_padding_laws. simpl. lia.
  - apply SampleFacts.sample_armor_laws.
  - reflexivity.
  - apply SampleFacts.utf_8_round_trip.
  - reflexivity.
Defined.

Lemma text_save_then_read_witness :
  (save_then_read (ENV := Sample.env) (PStr "hello world") Sample.char_field).1
  = OK (PStr "hello world").
Proof.
  apply (text_save_then_read (ENV := Sample.env) Sample.char_field
           (Sample.bytes_of_text "tenant-b") Sample.utf_8 "hello world"
           (Sample.utf8_encode "hello world")).
  - reflexivity.
  - reflexivity.
  - reflexivity.
  - reflexivity.
  - apply SampleFacts.toy_block_laws; [reflexivity | reflexivity | simpl; lia].
  - apply SampleFacts.sample_padding_laws. simpl. lia.
  - apply SampleFacts.sample_padding_nonempty. simpl. lia.
  - apply SampleFacts.sample_armor_laws.
  - apply SampleFacts.sample_detects.
  - reflexivity.
  - apply SampleFacts.utf_8_round_trip.
  - reflexivity.
Defined.

Lemma typed_save_then_read_witness :
  (save_then_read (ENV := Sample.env_typed) (PInt 42) Sample.integer_field).1
  = OK (PInt 42).
Proof.
  apply (typed_save_then_read (ENV := Sample.env_typed) Sample.integer_field
           Sample.key32 Sample.parse_int (PInt 42) "42"
           (Sample.utf8_encode "42")).
  - reflexivity.
  - reflexivity.
  - unfold empty_values. intros Hin.
    apply elem_of_cons in Hin as [[=]|Hin].
    apply list_elem_of_singleton in Hin. discriminate.
  - reflexivity.
  - reflexivity.
  - reflexivity.
  - apply SampleFacts.toy_block_laws; [reflexivity | reflexivity | simpl; lia].
  - apply (SampleFacts.sample_padding_laws 16). lia.
  - apply (SampleFacts.sample_padding_nonempty 16). lia.
  - apply SampleFacts.sample_armor_laws.
  - apply SampleFacts.sample_detects.
  - reflexivity.
  - reflexivity.
  - reflexivity.
Defined.

Lemma typed_to_python_legacy_witness :
  to_python (ENV := Sample.env_typed) (PStr "-17") Sample.integer_field
  = (OK (PInt (-17)), Sample.integer_field).
Proof.
  apply (typed_to_python_legacy (ENV := Sample.env_typed) Sample.integer_field
           Sample.parse_int (PStr "-17")).
  - reflexivity.
  - reflexivity.
  - unfold empty_values. intros Hin.
    apply elem_of_cons in Hin as [[=]|Hin].
    apply list_elem_of_singleton in Hin. discriminate.
  - reflexivity.
Defined.

Lemma get_db_prep_save_twice_witness :
  exists w',
    BaseEncryptedField_get_db_prep_save (ENV := Sample.env) (PStr "hello world")
      Sample.text_field = (OK Sample.hello_envelope, w')
    /\ BaseEncryptedField_get_db_prep_save (ENV := Sample.env)
         Sample.hello_envelope w' = (OK Sample.hello_envelope, w').
Proof.
  exists (BaseEncryptedField_get_db_prep_save (ENV := Sample.env)
            (PStr "hello world") Sample.text_field).2.
  assert (Hrun : BaseEncryptedField_get_db_prep_save (ENV := Sample.env)
                   (PStr "hello world") Sample.text_field
                 = (OK Sample.hello_envelope,
                    (BaseEncryptedField_get_db_prep_save (ENV := Sample.env)
                       (PStr "hello world") Sample.text_field).2))
    by (vm_compute; reflexivity).
  split; [exact Hrun|].
  apply (get_db_prep_save_twice (ENV := Sample.env) (PStr "hello world")
           Sample.hello_envelope Sample.text_field _ Sample.key32).
  - reflexivity.
  - apply SampleFacts.toy_block_laws; [reflexivity | reflexivity | simpl; lia].
  - apply SampleFacts.sample_padding_nonempty. simpl. lia.
  - apply SampleFacts.sample_detects.
  - exact Hrun.
Defined.

Lemma as_postgresql_contract_witness :
  EncryptedLookup_as_postgresql "gte" (OK ("t.amount", []))
    (OK ("%s", [PInt 100])) Sample.operators Sample.integer_field
  = (OK ("convert_from(decrypt(dearmor(t.amount), %s, 'aes'), 'utf-8')::integer >= %s",
         [PBytes Sample.key32; PInt 100]),
     Sample.integer_field).
Proof.
  apply (as_postgresql_contract "gte" "t.amount" "%s" ">= %s" ">= %s" []
           [PInt 100] Sample.operators Sample.integer_field).
  - left. reflexivity.
  - reflexivity.
  - reflexivity.
Defined.

Lemma as_postgresql_text_is_static_witness :
  rmap fst (EncryptedLookup_as_postgresql "exact" (OK ("t.name", []))
              (OK ("%s", [PStr "alice"])) Sample.operators Sample.text_field).1
  = rmap fst (EncryptedLookup_as_postgresql "exact" (OK ("t.name", []))
                (OK ("%s", [PStr "bob"])) Sample.operators
                {| cls := EncryptedTextField;
                   cipher := {| name := "AES"; cipher_key := PBytes Sample.key16;
                                charset := "latin-1";
                                cipher_class := Sample.AES |};
                   calls := [] |}).1
  /\ (EncryptedLookup_as_postgresql "exact" (OK ("t.name", []))
        (OK ("%s", [PStr "alice"])) Sample.operators Sample.text_field).2
     = Sample.text_field.
Proof.
  apply (as_postgresql_text_is_static "exact" "t.name" "%s" [] []
           [PStr "alice"] [PStr "bob"] Sample.operators Sample.text_field);
    reflexivity.
Defined.

Lemma as_postgresql_unmapped_cipher_witness :
  EncryptedLookup_as_postgresql "exact" (OK ("t.name", []))
    (OK ("%s", [PStr "alice"])) Sample.operators
    {| cls := EncryptedTextField;
       cipher := {| name := "DES3"; cipher_key := PBytes Sample.key16;
                    charset := "utf-8"; cipher_class := Sample.DES3 |};
       calls := [] |}
  = (Raise (KeyError "DES3"),
     {| cls := EncryptedTextField;
        cipher := {| name := "DES3"; cipher_key := PBytes Sample.key16;
                     charset := "utf-8"; cipher_class := Sample.DES3 |};
        calls := [] |}).
Proof.
  apply (as_postgresql_unmapped_cipher (ENV := Sample.env_DES3) "DES3"
           (PBytes Sample.key16) "utf-8" "exact" "t.name" "%s" "= %s" "= %s"
           {| name := "DES3"; cipher_key := PBytes Sample.key16;
              charset := "utf-8"; cipher_class := Sample.DES3 |}).
  - reflexivity.
  - discriminate.
  - discriminate.
  - reflexivity.
  - reflexivity.
  - reflexivity.
Defined.

Lemma keyless_field_cannot_save_witness :
  cipher_key (cipher {| cls := EncryptedTextField;
                        cipher := with_key Sample.cipher_AES (PBytes []);
                        calls := [] |}) = PBytes []
  /\ (BaseEncryptedField_get_db_prep_save (ENV := Sample.env)
        (PStr "hello world")
        {| cls := EncryptedTextField;
           cipher := with_key Sample.cipher_AES (PBytes []);
           calls := [] |}).1 = Raise ValueError.
Proof.
  apply (keyless_field_cannot_save (ENV := Sample.env) EncryptedTextField None
           {| cls := EncryptedTextField;
              cipher := with_key Sample.cipher_AES (PBytes []);
              calls := [] |}
           (PStr "hello world") (Sample.utf8_encode "hello world"));
    reflexivity.
Defined.

Lemma pre_save_sets_attribute_witness :
  let instance : gmap string pyval :=
    {[ "created" := PObject "2001-01-01" true ]} in
  (<["created" := PObject "2024-01-15" true]> instance) !! "created"
    = Some (PObject "2024-01-15" true)
  /\ (forall other, other <> "created" ->
        (<["created" := PObject "2024-01-15" true]> instance) !! other
        = instance !! other)
  /\ PObject "2024-01-15" true = PObject "2024-01-15" true.
Proof.
  intros instance.
  apply (pre_save_sets_attribute EncryptedDateField false true "created"
           (PObject "2024-01-15" true) (PObject "2024-01-15 10:00:00" true)
           (PObject "2024-01-15" true) instance
           (<["created" := PObject "2024-01-15" true]> instance) true).
  reflexivity.
Defined.

Lemma as_sql_exact_no_params_witness :
  EncryptedLookup_as_sql (ENV := Sample.env) "exact" (OK ("t.a", []))
    (OK ("t.b", [])) Sample.operators Sample.text_field
  = (OK ("t.a= t.b", []), Sample.text_field).
Proof.
  apply (as_sql_exact_no_params (ENV := Sample.env) "t.a" [] "t.b" "= %s"
           "= t.b" Sample.operators Sample.text_field); reflexivity.
Defined.

Lemma from_db_value_key_error_witness :
  BaseEncryptedField_from_db_value (ENV := Sample.env) Sample.hello_envelope
    {[ "cipher_key" := PInt 5 ]} Sample.text_field
  = (Raise TypeError, Sample.text_field).
Proof.
  apply (from_db_value_key_error (ENV := Sample.env)). reflexivity.
Defined.

(** [Decimal('0')] on the sample fields: false, so saved in the clear even
    on a field whose key was just assigned, and returned unparsed by the
    integer field. *)
Example save_of_false_object :
  (_ ← BaseEncryptedField_from_db_value (ENV := Sample.env)
         (PStr "legacy plain text")
         {[ "cipher_key" := PBytes Sample.key16 ]};
   BaseEncryptedField_get_db_prep_save (ENV := Sample.env) (PObject "0" false))
    Sample.text_field
  = (OK (PObject "0" false),
     {| cls := EncryptedTextField;
        cipher := with_key Sample.cipher_AES (PBytes Sample.key16);
        calls := [] |}).
Proof. vm_compute. reflexivity. Qed.

Example read_of_false_object :
  to_python (ENV := Sample.env_typed) (PObject "0" false) Sample.integer_field
  = (OK (PObject "0" false), Sample.integer_field).
Proof. reflexivity. Qed.
